(** * Hand-gesture particles: the shape shaders and the control loop

    A shallow embedding of the two scripts of the repository:

    - the four-template script (heart, flower, Saturn ring, firework) with its
      vertex and fragment shaders, the particle buffers and the simulated
      gesture loop: module [HandParticles];
    - the reduced three-template script [main.js]: module [MainJs].

    Shader and script floats are idealised as real numbers; integer-valued
    script numbers (the template id, the millisecond clock) are integers.
    A built-in whose result the shading language leaves undefined returns
    [None]. *)

From Stdlib Require Import Reals Lra Lia ZArith List Psatz.
Import ListNotations.
Open Scope R_scope.

(* ================================================================== *)
(** ** GLSL values and built-in functions *)
(* ================================================================== *)

Module GLSL.

Record vec2 := mkVec2 { px : R; py : R }.
Record vec3 := mkVec3 { vx : R; vy : R; vz : R }.
Record vec4 := mkVec4 { wx : R; wy : R; wz : R; ww : R }.

(** A [mat4] is stored by columns, as in GLSL. *)
Record mat4 := mkMat4 { col0 : vec4; col1 : vec4; col2 : vec4; col3 : vec4 }.

(** [vec3(s)], [vec4(v, w)] and the swizzle [.xyz]. *)
Definition splat3 (s : R) : vec3 := mkVec3 s s s.
Definition splat2 (s : R) : vec2 := mkVec2 s s.
Definition vec4_of (v : vec3) (w : R) : vec4 := mkVec4 (vx v) (vy v) (vz v) w.
Definition xyz (v : vec4) : vec3 := mkVec3 (wx v) (wy v) (wz v).

(** [v * s], [a + b], [a - b] on vectors. *)
Definition vscale (v : vec3) (s : R) : vec3 :=
  mkVec3 (vx v * s) (vy v * s) (vz v * s).
Definition vadd (a b : vec3) : vec3 :=
  mkVec3 (vx a + vx b) (vy a + vy b) (vz a + vz b).
Definition vsub2 (a b : vec2) : vec2 := mkVec2 (px a - px b) (py a - py b).
Definition vscale4 (v : vec4) (s : R) : vec4 :=
  mkVec4 (wx v * s) (wy v * s) (wz v * s) (ww v * s).
Definition vadd4 (a b : vec4) : vec4 :=
  mkVec4 (wx a + wx b) (wy a + wy b) (wz a + wz b) (ww a + ww b).

(** [m * v]: the linear combination of the columns of [m]. *)
Definition mat_mul (m : mat4) (v : vec4) : vec4 :=
  vadd4 (vadd4 (vscale4 (col0 m) (wx v)) (vscale4 (col1 m) (wy v)))
        (vadd4 (vscale4 (col2 m) (wz v)) (vscale4 (col3 m) (ww v))).

Definition dot (a b : vec3) : R := vx a * vx b + vy a * vy b + vz a * vz b.
Definition vlength (v : vec3) : R := sqrt (dot v v).
Definition vlength2 (v : vec2) : R := sqrt (px v * px v + py v * py v).

(** [x / y]: undefined when the divisor is zero. *)
Definition fdiv (x y : R) : option R :=
  if Req_dec_T y 0 then None else Some (x / y).

(** [normalize(v)]: the vector divided by its length; the zero vector has
    no direction and the result is undefined. *)
Definition normalize (v : vec3) : option vec3 :=
  if Req_dec_T (vlength v) 0 then None else Some (vscale v (/ vlength v)).

(** [pow(x, y)]: "results are undefined if x < 0; results are undefined if
    x = 0 and y <= 0". *)
Definition pow (x y : R) : option R :=
  if Rlt_dec x 0 then None
  else if Req_dec_T x 0 then (if Rlt_dec 0 y then Some 0 else None)
  else Some (Rpower x y).

Definition floor (x : R) : R := IZR (Zfloor x).

(** [mod(x, y) = x - y * floor(x / y)]; only used with a non-zero [y]. *)
Definition glsl_mod (x y : R) : R := x - y * floor (x / y).

Definition clamp (x lo hi : R) : R := Rmin (Rmax x lo) hi.

(** [mix(x, y, a) = x * (1 - a) + y * a], componentwise. *)
Definition mix (x y : vec3) (a : R) : vec3 :=
  vadd (vscale x (1 - a)) (vscale y a).

Definition smoothstep (edge0 edge1 x : R) : R :=
  let t := clamp ((x - edge0) / (edge1 - edge0)) 0 1 in
  t * t * (3 - 2 * t).

End GLSL.

(* ================================================================== *)
(** ** JavaScript number helpers *)
(* ================================================================== *)

Module JS.

(** Truncation toward zero, as used by the remainder operator. *)
Definition trunc (x : R) : Z :=
  if Rle_dec 0 x then Zfloor x else Zceil x.

(** [x % y] on numbers: the remainder has the sign of the dividend. *)
Definition rem (x y : R) : R := x - y * IZR (trunc (x / y)).

(** [Math.floor]. *)
Definition floor (x : R) : Z := Zfloor x.

(** A [Float32Array]: index to value; a fresh array is zero-filled. A
    store keeps the value as a real number (the rounding to single
    precision is left out). *)
Definition Float32Array := nat -> R.
Definition new_array : Float32Array := fun _ => 0.
Definition store (a : Float32Array) (k : nat) (v : R) : Float32Array :=
  fun j => if Nat.eqb j k then v else a j.

End JS.

(* ================================================================== *)
(** ** The camera of the rendering library *)
(* ================================================================== *)

Module THREE.
Import GLSL.

(** The model-view matrix of an object left at the origin, seen by a
    camera moved to [(0, 0, z)] and not rotated: the translation by [-z]
    along the third axis. *)
Definition viewFrom (z : R) : mat4 :=
  mkMat4 (mkVec4 1 0 0 0) (mkVec4 0 1 0 0) (mkVec4 0 0 1 0)
         (mkVec4 0 0 (- z) 1).

End THREE.

(* ================================================================== *)
(** ** The four-template script *)
(* ================================================================== *)

Module HandParticles.
Import GLSL.

(** [let particleCount = 50000;] *)
Definition particleCount : Z := 50000.

(** *** Vertex shader *)
Module particleVertexShader.
Section Shader.
(** uniforms *)
Variables (time templateID expansionFactor : R).
Variables (modelViewMatrix projectionMatrix : mat4).
(** attributes *)
Variables (particleIndex : R) (customColor position : vec3).

(** The two coordinates of the heart curve, as the locals [x] and [y]
    of [heartShape]; [x] goes through [pow]. *)
Definition heart_x (angle : R) : option R :=
  option_map (fun p => 16.0 * p) (pow (sin angle) 3.0).

Definition heart_y (angle : R) : R :=
  13.0 * cos angle - 5.0 * cos (2.0 * angle)
  - 2.0 * cos (3.0 * angle) - cos (4.0 * angle).

Definition heartShape (index : R) : option vec3 :=
  let angle := index * 6.283185307 in
  let r := 0.2 + 0.8 * sin angle in
  match heart_x angle with
  | Some x =>
      let y := heart_y angle in
      let z := 0.0 in
      Some (vscale (mkVec3 x y z) 0.05)
  | None => None
  end.

Definition flowerShape (index : R) : vec3 :=
  let angle := index * 6.283185307 in
  let r := 1.0 + 0.5 * sin (angle * 5.0) in
  let x := r * cos angle in
  let y := r * sin angle in
  let z := 0.5 * cos (angle * 3.0) in
  vscale (mkVec3 x y z) 1.5.

Definition saturnShape (index : R) : vec3 :=
  let angle := index * 6.283185307 in
  let radius := 2.5 in
  let x := radius * cos angle in
  let y := radius * sin angle in
  let z := sin (time * 0.5 + index * 100.0) * 0.1 in
  mkVec3 x y z.

(** The "random" direction of a particle, before normalisation. *)
Definition rawDirection : vec3 :=
  mkVec3 (sin (particleIndex * 1.23) * cos (particleIndex * 3.45))
         (sin (particleIndex * 5.67) * cos (particleIndex * 7.89))
         (sin (particleIndex * 9.01) * cos (particleIndex * 2.34)).

Definition explosionTimeOf (index : R) : R :=
  glsl_mod (time * 0.2 + index * 0.01) 1.0.

Definition fireworkShape (index : R) : option vec3 :=
  let initialPos := splat3 0.0 in
  let explosionTime := explosionTimeOf index in
  match normalize rawDirection with
  | Some direction =>
      let speed := 5.0 in
      Some (vadd initialPos
              (vscale (vscale (vscale (vscale direction speed)
                                  explosionTime)
                          (1.0 - explosionTime))
                  10.0))
  | None => None
  end.

(** The template switch of [main]: every branch assigns [position]. The
    shader text divides by [float(particleCount)], the particle count of
    the script. *)
Definition templateSwitch (position0 : vec3) : option vec3 :=
  if Rlt_dec templateID 0.5 then
    heartShape (particleIndex / IZR particleCount)
  else if Rlt_dec templateID 1.5 then
    Some (flowerShape (particleIndex / IZR particleCount))
  else if Rlt_dec templateID 2.5 then
    Some (saturnShape (particleIndex / IZR particleCount))
  else
    fireworkShape (particleIndex / IZR particleCount).

(** [position *= (1.0 + expansionFactor * 3.0);] *)
Definition expansionControl (p : vec3) : vec3 :=
  vscale p (1.0 + expansionFactor * 3.0).

(** The local [position] of [main] after the expansion step. *)
Definition finalPosition : option vec3 :=
  let position0 := position in
  option_map expansionControl (templateSwitch position0).

Record VertexOut := mkVertexOut
  { vColor : vec3; gl_PointSize : R; gl_Position : vec4 }.

Definition main : option VertexOut :=
  let vColor := customColor in
  match finalPosition with
  | Some position2 =>
      let mvPosition := mat_mul modelViewMatrix (vec4_of position2 1.0) in
      match fdiv 200.0 (vlength (xyz mvPosition)) with
      | Some q =>
          Some (mkVertexOut vColor
                  ((10.0 - expansionFactor * 5.0) * q)
                  (mat_mul projectionMatrix mvPosition))
      | None => None
      end
  | None => None
  end.

End Shader.
End particleVertexShader.

(** *** Fragment shader *)
Module particleFragmentShader.
Section Shader.
Variables (time templateID : R).
Variables (vColor : vec3) (gl_PointCoord : vec2).

Definition main : vec4 :=
  let p := vsub2 gl_PointCoord (splat2 0.5) in
  let r := vlength2 p in
  let dynamicColor :=
    if Req_dec_T templateID 3.0 then
      mix vColor (mkVec3 1.0 0.5 0.0) (sin (time * 5.0) * 0.5 + 0.5)
    else
      mix vColor (mkVec3 1.0 0.0 0.0) (sin time * 0.2) in
  vec4_of dynamicColor (1.0 - smoothstep 0.4 0.5 r).

(** The third argument of the [mix] call taken by [main], and its
    second argument. *)
Definition mixWeight : R :=
  if Req_dec_T templateID 3.0 then sin (time * 5.0) * 0.5 + 0.5
  else sin time * 0.2.

Definition accent : vec3 :=
  if Req_dec_T templateID 3.0 then mkVec3 1.0 0.5 0.0
  else mkVec3 1.0 0.0 0.0.

End Shader.
End particleFragmentShader.

(** *** Particle buffers *)

Record Buffers := mkBuffers
  { positions : JS.Float32Array;
    colors : JS.Float32Array;
    particleIndices : JS.Float32Array }.

(** The body of the creation loop for particle [i]. [random] is the
    stream of values returned by [Math.random()]; the loop draws three
    of them per particle. *)
Definition createParticle (random : nat -> R) (i : nat) (b : Buffers) : Buffers :=
  let positions := JS.store (positions b) (i * 3 + 0) (random (i * 3 + 0)%nat * 10 - 5) in
  let positions := JS.store positions (i * 3 + 1) (random (i * 3 + 1)%nat * 10 - 5) in
  let positions := JS.store positions (i * 3 + 2) (random (i * 3 + 2)%nat * 10 - 5) in
  let colors := JS.store (colors b) (i * 3 + 0) 0.2 in
  let colors := JS.store colors (i * 3 + 1) 0.4 in
  let colors := JS.store colors (i * 3 + 2) 1.0 in
  let particleIndices := JS.store (particleIndices b) i (INR i) in
  mkBuffers positions colors particleIndices.

(** [for (let i = 0; i < particleCount; i++)], run for [n] more rounds
    from [i]. *)
Fixpoint createLoop (random : nat -> R) (n i : nat) (b : Buffers) : Buffers :=
  match n with
  | O => b
  | S n' => createLoop random n' (S i) (createParticle random i b)
  end.

Definition createParticles (random : nat -> R) : Buffers :=
  createLoop random (Z.to_nat particleCount) 0
    (mkBuffers JS.new_array JS.new_array JS.new_array).

(** Attribute fetch for vertex [i]: three floats per [vec3] attribute. *)
Definition fetch3 (a : JS.Float32Array) (i : nat) : vec3 :=
  mkVec3 (a (i * 3 + 0)%nat) (a (i * 3 + 1)%nat) (a (i * 3 + 2)%nat).

(** The vertex shader run on vertex [i] of the buffers. *)
Definition renderVertex (time templateID expansionFactor : R)
    (modelViewMatrix projectionMatrix : mat4) (b : Buffers) (i : nat)
    : option particleVertexShader.VertexOut :=
  particleVertexShader.main time templateID expansionFactor
    modelViewMatrix projectionMatrix
    (particleIndices b i) (fetch3 (colors b) i) (fetch3 (positions b) i).

(** *** Gesture simulation and animation loop *)

(** The script's globals and the uniforms of the material. *)
Record Script := mkScript
  { templateID : Z;
    expansionFactor : R;
    lastSwitchTime : Z;
    u_time : R;
    u_expansionFactor : R;
    u_templateID : Z }.

(** The state after [init()] when the clock reads [now] at load. *)
Definition initial (now : Z) : Script :=
  mkScript 0 0.5 now 0.0 0.5 0.

(** [templateID = (templateID + 1) % 4]. *)
Definition nextTemplate (templateID : Z) : Z := Z.rem (templateID + 1) 4.

(** [getGestureData()]; [now1], [now2], [now3] are the readings of the
    three [Date.now()] calls, in program order (the third is only taken
    when the template switches). *)
Definition getGestureData (now1 now2 now3 : Z) (s : Script) : Script :=
  let t := IZR now1 / 1000 in
  let pulse := sin (t * 1.5) * 0.5 + 0.5 in
  let expansionFactor := 0.3 + pulse * 0.7 in
  if Z.ltb 6000 (now2 - lastSwitchTime s) then
    mkScript (nextTemplate (templateID s)) expansionFactor now3
             (u_time s) (u_expansionFactor s) (u_templateID s)
  else
    mkScript (templateID s) expansionFactor (lastSwitchTime s)
             (u_time s) (u_expansionFactor s) (u_templateID s).

(** One frame of [animate()]. *)
Definition animate (now1 now2 now3 : Z) (s : Script) : Script :=
  let s := getGestureData now1 now2 now3 s in
  mkScript (templateID s) (expansionFactor s) (lastSwitchTime s)
           (u_time s + 0.01) (expansionFactor s) (templateID s).

(** A run of frames, one clock triple per frame. *)
Fixpoint frames (clock : list (Z * Z * Z)) (s : Script) : Script :=
  match clock with
  | [] => s
  | (now1, now2, now3) :: rest => frames rest (animate now1 now2 now3 s)
  end.

(** *** Scene set-up *)

(** [camera.position.z = 10;] in [init()]; the particle system is added
    to the scene at the origin. *)
Definition cameraZ : R := 10.
Definition modelView : mat4 := THREE.viewFrom cameraZ.

End HandParticles.

(* ================================================================== *)
(** ** The reduced three-template script, [main.js] *)
(* ================================================================== *)

Module MainJs.
Import GLSL.

(** [const particleCount = 20000;], spliced into the shader text as the
    literal [20000.0]. *)
Definition particleCount : Z := 20000.

Module vShader.
Section Shader.
Variables (uTime uTemplate uExpand : R).
Variables (modelViewMatrix projectionMatrix : mat4).
Variables (aIndex : R).

Definition getShape (id i : R) : option vec3 :=
  let angle := i * 6.28318 in
  if Rlt_dec id 0.5 then
    match pow (sin angle) 3.0 with
    | Some p =>
        let x := 16.0 * p in
        let y := 13.0 * cos angle - 5.0 * cos (2.0 * angle)
                 - 2.0 * cos (3.0 * angle) - cos (4.0 * angle) in
        Some (vscale (mkVec3 x y 0.0) 0.4)
    | None => None
    end
  else if Rlt_dec id 1.5 then
    let r := 5.0 + 2.0 * sin (angle * 6.0) in
    Some (mkVec3 (r * cos angle) (r * sin angle) (sin (i * 10.0)))
  else
    let r := 8.0 in
    Some (mkVec3 (r * cos angle) (r * sin angle * 0.3) (r * sin angle)).

(** [targetPos] after [targetPos *= (1.0 + uExpand * 2.0);]. *)
Definition targetPos : option vec3 :=
  option_map (fun p => vscale p (1.0 + uExpand * 2.0))
    (getShape uTemplate (aIndex / IZR particleCount)).

Record VertexOut := mkVertexOut
  { vColor : vec3; gl_PointSize : R; gl_Position : vec4 }.

Definition main : option VertexOut :=
  match targetPos with
  | Some targetPos =>
      let vColor := mkVec3 (0.5 + 0.5 * sin (uTime + vx targetPos)) 0.7 1.0 in
      let mvPosition := mat_mul modelViewMatrix (vec4_of targetPos 1.0) in
      match fdiv 100.0 (- wz mvPosition) with
      | Some q =>
          Some (mkVertexOut vColor (4.0 * q)
                  (mat_mul projectionMatrix mvPosition))
      | None => None
      end
  | None => None
  end.

End Shader.
End vShader.

Module fShader.
Section Shader.
Variables (vColor : vec3) (gl_PointCoord : vec2).

(** [None] is a discarded fragment. *)
Definition main : option vec4 :=
  if Rlt_dec 0.5 (vlength2 (vsub2 gl_PointCoord (splat2 0.5))) then None
  else Some (vec4_of vColor 1.0).

End Shader.
End fShader.

(** [camera.position.z = 15;] *)
Definition cameraZ : R := 15.
Definition modelView : mat4 := THREE.viewFrom cameraZ.

(** The buffers: [indices[i] = i]; [positions] stays zero-filled. *)
Record Buffers := mkBuffers
  { indices : JS.Float32Array; positions : JS.Float32Array }.

Fixpoint fillIndices (n i : nat) (a : JS.Float32Array) : JS.Float32Array :=
  match n with
  | O => a
  | S n' => fillIndices n' (S i) (JS.store a i (INR i))
  end.

Definition buffers : Buffers :=
  mkBuffers (fillIndices (Z.to_nat particleCount) 0 JS.new_array) JS.new_array.

(** The uniforms written by one frame of [animate()]; [now] is the reading
    of [performance.now()], in milliseconds. *)
Record Uniforms := mkUniforms { uTime : R; uExpand : R; uTemplate : Z }.

Definition animate (now : R) : Uniforms :=
  let time := now * 0.001 in
  mkUniforms time (Rabs (sin time)) (JS.floor (JS.rem (time / 4.0) 3)).

(** The vertex shader run on vertex [i]; the shader declares no [position]
    attribute and reads only [aIndex]. *)
Definition renderVertex (u : Uniforms) (modelViewMatrix projectionMatrix : mat4)
    (b : Buffers) (i : nat) : option vShader.VertexOut :=
  vShader.main (uTime u) (IZR (uTemplate u)) (uExpand u)
    modelViewMatrix projectionMatrix (indices b i).

End MainJs.

(* ================================================================== *)
(** ** Notions used to state the properties *)
(* ================================================================== *)

Module Spec.
Import GLSL.

(** A coordinate [f] of a shape, as a function of the normalised index, has
    no seam at the wrap within [tol]: just below index 1 it stays within
    [tol] of its value at index 0. *)
Definition seamless (tol : R) (f : R -> R) : Prop :=
  exists delta, 0 < delta /\
    forall eps, 0 < eps < delta -> Rabs (f (1 - eps) - f 0) < tol.

(** [f] tends to [l] as the normalised index rises to 1. *)
Definition tends_at_wrap (f : R -> R) (l : R) : Prop :=
  forall tol, 0 < tol ->
    exists delta, 0 < delta /\
      forall eps, 0 < eps < delta -> Rabs (f (1 - eps) - l) < tol.

(** A coordinate of a shape that may be undefined, read as 0 where it
    is. *)
Definition coordinate (c : vec3 -> R) (shape : R -> option vec3) (i : R) : R :=
  match shape i with Some p => c p | None => 0 end.



(** The blended channel [c] stays between the channels [a] and [b] of the
    two endpoint colours. *)
Definition between (a b c : R) : Prop := Rmin a b <= c <= Rmax a b.

End Spec.

(* ================================================================== *)
(** ** Facts about the built-ins *)
(* ================================================================== *)

Section Analysis.

(** Eleven digits of pi, from Machin's arctangent series. *)
Lemma PI_tight : 3.14159265358 < PI < 3.1415926536.
Proof.
  pose proof (PI_2_3_7_ineq 5) as H.
  unfold PI_2_3_7_tg, tg_alt, Ratan_seq in H. simpl in H.
  lra.
Qed.

Lemma Rabs_sin_le (x : R) : Rabs (sin x) <= Rabs x.
Proof.
  assert (pos : forall y, 0 < y -> Rabs (sin y) <= y).
  { intros y Hy. apply Rabs_le. split.
    - destruct (Rle_dec 1 y) as [H1 | H1].
      + pose proof (SIN_bound y). lra.
      + assert (0 < sin y) by (apply sin_gt_0; pose proof PI_tight; lra). lra.
    - left. now apply sin_lt_x. }
  destruct (Rtotal_order x 0) as [Hx | [Hx | Hx]].
  - specialize (pos (- x) ltac:(lra)).
    rewrite sin_neg, Rabs_Ropp in pos.
    rewrite (Rabs_left x) by lra. exact pos.
  - subst x. rewrite sin_0. lra.
  - rewrite (Rabs_pos_eq x) by lra. now apply pos.
Qed.

Lemma Rabs_cos1_le (x : R) : Rabs (cos x - 1) <= Rabs x.
Proof.
  replace x with (2 * (x / 2)) at 1 by field.
  rewrite cos_2a_sin.
  pose proof (Rabs_sin_le (x / 2)) as Hs.
  pose proof (SIN_bound (x / 2)) as Hb.
  replace (Rabs (x / 2)) with (Rabs x / 2) in Hs
    by (unfold Rdiv; rewrite Rabs_mult, (Rabs_pos_eq (/ 2)) by lra; reflexivity).
  pose proof (Rabs_pos x).
  apply Rabs_le.
  assert (Hl : - (Rabs x / 2) <= sin (x / 2) <= Rabs x / 2).
  { revert Hs. unfold Rabs at 1. destruct (Rcase_abs (sin (x / 2))); lra. }
  split; nra.
Qed.

(** The sine and cosine at an angle that is a whole number of turns away. *)
Lemma sin_turns (x : R) (k : nat) : sin (x - 2 * INR k * PI) = sin x.
Proof.
  rewrite <- (sin_period (x - 2 * INR k * PI) k). f_equal. lra.
Qed.

Lemma cos_turns (x : R) (k : nat) : cos (x - 2 * INR k * PI) = cos x.
Proof.
  rewrite <- (cos_period (x - 2 * INR k * PI) k). f_equal. lra.
Qed.

End Analysis.

Section Builtins.
Import GLSL.

Lemma pow_cube (x : R) : 0 <= x -> pow x 3.0 = Some (x ^ 3).
Proof.
  intros Hx. unfold pow.
  destruct (Rlt_dec x 0) as [H | _]; [lra |].
  destruct (Req_dec_T x 0) as [H0 | H0].
  - destruct (Rlt_dec 0 3.0) as [_ | H]; [| lra]. subst x. f_equal. lra.
  - f_equal. replace 3.0 with (INR 3) by (simpl; lra).
    apply Rpower_pow. lra.
Qed.

Lemma pow_negative_base (x y : R) : x < 0 -> pow x y = None.
Proof.
  intros Hx. unfold pow. destruct (Rlt_dec x 0); [reflexivity | lra].
Qed.

Lemma vlength_nonneg (v : vec3) : 0 <= vlength v.
Proof. apply sqrt_pos. Qed.

Lemma dot_self_nonneg (v : vec3) : 0 <= dot v v.
Proof. unfold dot. nra. Qed.

Lemma vlength_vscale (v : vec3) (s : R) :
  vlength (vscale v s) = vlength v * Rabs s.
Proof.
  unfold vlength.
  replace (dot (vscale v s) (vscale v s)) with (dot v v * (s * s))
    by (unfold dot, vscale; simpl; ring).
  rewrite sqrt_mult_alt by apply dot_self_nonneg.
  f_equal. fold (Rsqr s). apply sqrt_Rsqr_abs.
Qed.

Lemma vlength_zero : vlength (mkVec3 0 0 0) = 0.
Proof.
  unfold vlength, dot; simpl.
  replace (0 * 0 + 0 * 0 + 0 * 0) with 0 by ring. apply sqrt_0.
Qed.

Lemma normalize_zero : normalize (mkVec3 0 0 0) = None.
Proof.
  unfold normalize. rewrite vlength_zero.
  destruct (Req_dec_T 0 0); [reflexivity | contradiction].
Qed.

(** A defined [normalize] returns a unit vector. *)
Lemma normalize_unit (v d : vec3) : normalize v = Some d -> vlength d = 1.
Proof.
  unfold normalize. destruct (Req_dec_T (vlength v) 0) as [H | H]; [discriminate |].
  intros E. injection E as <-.
  rewrite vlength_vscale.
  pose proof (vlength_nonneg v).
  rewrite Rabs_pos_eq by (left; apply Rinv_0_lt_compat; lra).
  now apply Rinv_r.
Qed.

Lemma floor_bound (x : R) : floor x <= x < floor x + 1.
Proof. apply Zfloor_bound. Qed.

(** [mod(x, 1.0)] is the fractional part: it lies in [0, 1). *)
Lemma glsl_mod_1_range (x : R) : 0 <= glsl_mod x 1.0 < 1.
Proof.
  unfold glsl_mod. replace (x / 1.0) with x by lra.
  pose proof (floor_bound x). lra.
Qed.

Lemma glsl_mod_1_small (x : R) : 0 <= x < 1 -> glsl_mod x 1.0 = x.
Proof.
  intros Hx. unfold glsl_mod, floor. replace (x / 1.0) with x by lra.
  rewrite (Zfloor_eq 0 x) by (simpl; lra). lra.
Qed.

End Builtins.

(* ================================================================== *)
(** ** The particle buffers *)
(* ================================================================== *)

Section BufferFacts.
Import HandParticles.

Lemma store_same (a : JS.Float32Array) (k : nat) (v : R) : JS.store a k v k = v.
Proof. unfold JS.store. now rewrite Nat.eqb_refl. Qed.

Lemma store_other (a : JS.Float32Array) (k j : nat) (v : R) :
  j <> k -> JS.store a k v j = a j.
Proof.
  intros H. unfold JS.store. destruct (Nat.eqb_spec j k); [contradiction | reflexivity].
Qed.

(** The creation loop writes [i] at slot [i] of the index buffer. *)
Lemma createLoop_particleIndices (random : nat -> R) (n : nat) :
  forall i b k,
    particleIndices (createLoop random n i b) k =
    if (Nat.leb i k && Nat.ltb k (i + n))%bool then INR k
    else particleIndices b k.
Proof.
  induction n as [| n IH]; intros i b k; cbn [createLoop].
  - replace (i + 0)%nat with i by lia.
    destruct (Nat.leb_spec i k), (Nat.ltb_spec k i); simpl; try reflexivity; lia.
  - rewrite IH. unfold createParticle; cbn [particleIndices].
    destruct (Nat.eq_dec k i) as [-> | Hk].
    + rewrite store_same.
      destruct (Nat.leb_spec (S i) i), (Nat.ltb_spec i (S i + n)),
               (Nat.leb_spec i i), (Nat.ltb_spec i (i + S n)); simpl;
        try reflexivity; lia.
    + rewrite store_other by exact Hk.
      destruct (Nat.leb_spec (S i) k), (Nat.ltb_spec k (S i + n)),
               (Nat.leb_spec i k), (Nat.ltb_spec k (i + S n)); simpl;
        try reflexivity; lia.
Qed.

(** Neither the colour buffer nor the index buffer depends on the values
    drawn from [Math.random()]. *)
Lemma createLoop_random_free (r1 r2 : nat -> R) (n : nat) :
  forall i b1 b2,
    (forall k, colors b1 k = colors b2 k) ->
    (forall k, particleIndices b1 k = particleIndices b2 k) ->
    (forall k, colors (createLoop r1 n i b1) k = colors (createLoop r2 n i b2) k) /\
    (forall k, particleIndices (createLoop r1 n i b1) k =
               particleIndices (createLoop r2 n i b2) k).
Proof.
  induction n as [| n IH]; intros i b1 b2 Hc Hi; simpl.
  - now split.
  - apply IH; intros k; simpl; unfold JS.store.
    + repeat (destruct (Nat.eqb _ _); [reflexivity |]). apply Hc.
    + destruct (Nat.eqb _ _); [reflexivity | apply Hi].
Qed.

Lemma createParticles_random_free (r1 r2 : nat -> R) :
  (forall k, colors (createParticles r1) k = colors (createParticles r2) k) /\
  (forall k, particleIndices (createParticles r1) k =
             particleIndices (createParticles r2) k).
Proof.
  unfold createParticles. generalize (Z.to_nat particleCount). intros n.
  apply createLoop_random_free; intros k; reflexivity.
Qed.

Lemma createParticles_index (random : nat -> R) (i : nat) :
  (i < Z.to_nat particleCount)%nat ->
  particleIndices (createParticles random) i = INR i.
Proof.
  intros Hi. unfold createParticles. rewrite createLoop_particleIndices.
  destruct (Nat.leb_spec 0 i), (Nat.ltb_spec i (0 + Z.to_nat particleCount));
    simpl; try reflexivity; lia.
Qed.

End BufferFacts.

(* ================================================================== *)
(** ** The shape functions at particular indices *)
(* ================================================================== *)

Section ShapeFacts.
Import GLSL HandParticles HandParticles.particleVertexShader.

Lemma heartShape_0 : heartShape 0 = Some (mkVec3 0 0.25 0).
Proof.
  unfold heartShape, heart_x, heart_y.
  rewrite Rmult_0_l, !Rmult_0_r, sin_0, cos_0.
  rewrite pow_cube by lra. simpl. unfold vscale; simpl.
  f_equal. f_equal; lra.
Qed.

(** Three quarters of the way round the heart the sine is negative and
    [pow] has no defined result. *)
Lemma heartShape_three_quarters : heartShape 0.75 = None.
Proof.
  unfold heartShape, heart_x.
  rewrite pow_negative_base; [reflexivity |].
  pose proof PI_tight. apply sin_lt_0; lra.
Qed.

Lemma rawDirection_0 : rawDirection 0 = mkVec3 0 0 0.
Proof.
  unfold rawDirection. rewrite !Rmult_0_l, sin_0. f_equal; ring.
Qed.

(** Particle 0 has no direction: the vector handed to [normalize] is zero. *)
Lemma fireworkShape_particle0 (time index : R) : fireworkShape time 0 index = None.
Proof.
  unfold fireworkShape. now rewrite rawDirection_0, normalize_zero.
Qed.

Lemma explosionTime_range (time index : R) :
  0 <= explosionTimeOf time index < 1.
Proof. apply glsl_mod_1_range. Qed.

(** At time 0 the phase of a particle is a hundredth of its normalised
    index. *)
Lemma explosionTime_at_0 (index : R) :
  0 <= index <= 1 -> explosionTimeOf 0 index = index * 0.01.
Proof.
  intros H. unfold explosionTimeOf. rewrite glsl_mod_1_small; lra.
Qed.

(** Where the direction is defined the burst has magnitude
    [50 * phase * (1 - phase)]. *)
Lemma fireworkShape_magnitude (time particleIndex index : R) (p : vec3) :
  fireworkShape time particleIndex index = Some p ->
  vlength p = 50 * explosionTimeOf time index * (1 - explosionTimeOf time index).
Proof.
  unfold fireworkShape.
  destruct (normalize (rawDirection particleIndex)) as [d |] eqn:Hd; [| discriminate].
  intros E. injection E as <-.
  pose proof (explosionTime_range time index) as [H0 H1].
  set (e := explosionTimeOf time index) in *.
  replace (vadd (splat3 0.0)
             (vscale (vscale (vscale (vscale d 5.0) e) (1.0 - e)) 10.0))
    with (vscale d (50 * e * (1 - e)))
    by (unfold vadd, vscale, splat3; simpl; f_equal; lra).
  rewrite vlength_vscale, (normalize_unit _ _ Hd).
  rewrite Rabs_pos_eq by nra. ring.
Qed.

(** The parabola [50 e (1 - e)] on the phase range: zero at 0, at most the
    value 12.5 taken at 0.5 and only there, rising before and falling
    after, and below [50 (1 - e)] on the way to 1. *)
Lemma burst_profile (e : R) :
  0 <= e < 1 ->
  50 * 0 * (1 - 0) = 0 /\
  50 * e * (1 - e) <= 50 * 0.5 * (1 - 0.5) /\
  (50 * e * (1 - e) = 50 * 0.5 * (1 - 0.5) -> e = 0.5) /\
  0 <= 50 * e * (1 - e) <= 50 * (1 - e) /\
  (forall e', e <= e' <= 0.5 -> 50 * e * (1 - e) <= 50 * e' * (1 - e')) /\
  (forall e', 0.5 <= e <= e' -> 50 * e' * (1 - e') <= 50 * e * (1 - e)).
Proof.
  intros H.
  assert (Hq : 0 <= (e - 0.5) * (e - 0.5)) by apply Rle_0_sqr.
  split; [lra |]. split; [lra |]. split.
  { intros E. assert (Hs : (e - 0.5) * (e - 0.5) = 0) by lra.
    assert (e - 0.5 = 0) by (apply Rsqr_0_uniq; exact Hs). lra. }
  split; [nra |].
  split; intros e' H'.
  - assert (0 <= (e' - e) * (1 - e - e')) by (apply Rmult_le_pos; lra). lra.
  - assert (0 <= (e' - e) * (e + e' - 1)) by (apply Rmult_le_pos; lra). lra.
Qed.

(** At time 0 every particle with a direction sits within 0.5 of the
    origin (the peak of the burst is 12.5). *)
Lemma fireworkShape_time0_near_origin (particleIndex index : R) (p : vec3) :
  0 <= index <= 1 ->
  fireworkShape 0 particleIndex index = Some p -> vlength p <= 0.5.
Proof.
  intros Hi Hp. rewrite (fireworkShape_magnitude _ _ _ _ Hp).
  rewrite explosionTime_at_0 by exact Hi. nra.
Qed.

Lemma vlength_zero_inv (v : vec3) : vlength v = 0 -> vx v = 0.
Proof.
  unfold vlength. intros H.
  apply sqrt_eq_0 in H; [| apply dot_self_nonneg].
  unfold dot in H.
  assert (Hx : vx v * vx v = 0) by nra.
  apply Rmult_integral in Hx. now destruct Hx.
Qed.

(** Particle 1 does have a direction, and so a firework position, at any
    time: the first component of its raw direction is
    [sin 1.23 * cos 3.45], a positive number times a negative one. *)
Lemma fireworkShape_particle1 (time index : R) :
  exists p, fireworkShape time 1 index = Some p.
Proof.
  unfold fireworkShape, normalize.
  destruct (Req_dec_T (vlength (rawDirection 1)) 0) as [H | H]; [| eauto].
  exfalso. apply vlength_zero_inv in H. unfold rawDirection in H; cbn [vx] in H.
  pose proof PI_tight.
  assert (0 < sin (1 * 1.23)) by (apply sin_gt_0; lra).
  assert (cos (1 * 3.45) < 0) by (apply cos_lt_0; lra).
  nra.
Qed.

(** The template switch, branch by branch. *)
Lemma templateSwitch_heart (time id particleIndex : R) (pos : vec3) :
  id < 0.5 ->
  templateSwitch time id particleIndex pos =
  heartShape (particleIndex / IZR particleCount).
Proof.
  intros H. unfold templateSwitch. destruct (Rlt_dec id 0.5); [reflexivity | lra].
Qed.

Lemma templateSwitch_flower (time id particleIndex : R) (pos : vec3) :
  0.5 <= id < 1.5 ->
  templateSwitch time id particleIndex pos =
  Some (flowerShape (particleIndex / IZR particleCount)).
Proof.
  intros H. unfold templateSwitch.
  destruct (Rlt_dec id 0.5); [lra |].
  destruct (Rlt_dec id 1.5); [reflexivity | lra].
Qed.

Lemma templateSwitch_saturn (time id particleIndex : R) (pos : vec3) :
  1.5 <= id < 2.5 ->
  templateSwitch time id particleIndex pos =
  Some (saturnShape time (particleIndex / IZR particleCount)).
Proof.
  intros H. unfold templateSwitch.
  destruct (Rlt_dec id 0.5); [lra |].
  destruct (Rlt_dec id 1.5); [lra |].
  destruct (Rlt_dec id 2.5); [reflexivity | lra].
Qed.

Lemma templateSwitch_firework (time id particleIndex : R) (pos : vec3) :
  2.5 <= id ->
  templateSwitch time id particleIndex pos =
  fireworkShape time particleIndex (particleIndex / IZR particleCount).
Proof.
  intros H. unfold templateSwitch.
  destruct (Rlt_dec id 0.5); [lra |].
  destruct (Rlt_dec id 1.5); [lra |].
  destruct (Rlt_dec id 2.5); [lra | reflexivity].
Qed.

End ShapeFacts.

(* ================================================================== *)
(** ** The per-particle evaluator *)
(* ================================================================== *)

Section Evaluator.
Import GLSL HandParticles HandParticles.particleVertexShader.

Lemma particleCount_pos : (0 < Z.to_nat particleCount)%nat.
Proof. unfold particleCount. lia. Qed.

Lemma first_index_normalised : 0 / IZR particleCount = 0.
Proof. unfold Rdiv. apply Rmult_0_l. Qed.

(** C1 (fails on the code): under the firework template particle 0 has no
    defined position. The index buffer holds 0 for the first particle, the
    vector handed to [normalize] is then the zero vector, and neither the
    direction, nor the shape, nor the rendered vertex is defined, at any
    time. *)
Theorem firework_particle0_undefined :
  forall (time expansion : R) (mv proj : mat4) (random : nat -> R),
    particleIndices (createParticles random) 0%nat = 0 /\
    normalize (rawDirection 0) = None /\
    fireworkShape time 0 (0 / IZR particleCount) = None /\
    renderVertex time 3 expansion mv proj (createParticles random) 0%nat = None.
Proof.
  intros time expansion mv proj random.
  assert (Hidx : particleIndices (createParticles random) 0%nat = 0).
  { rewrite createParticles_index by apply particleCount_pos. reflexivity. }
  split; [exact Hidx |].
  split; [rewrite rawDirection_0; apply normalize_zero |].
  split; [apply fireworkShape_particle0 |].
  unfold renderVertex, main, finalPosition. rewrite Hidx.
  rewrite templateSwitch_firework by lra.
  now rewrite fireworkShape_particle0.
Qed.





(** C9 (fails on the code): at time 0 the phase of particle 0 is 0, where
    the burst formula would give the origin, but the shape has no defined
    value there, and in particular is not the origin. *)
Theorem firework_time0_particle0_not_origin :
  explosionTimeOf 0 (0 / IZR particleCount) = 0 /\
  fireworkShape 0 0 (0 / IZR particleCount) = None /\
  fireworkShape 0 0 (0 / IZR particleCount) <> Some (mkVec3 0 0 0).
Proof.
  rewrite first_index_normalised, fireworkShape_particle0.
  split; [rewrite explosionTime_at_0 by lra; lra |].
  split; [reflexivity | discriminate].
Qed.

Lemma expansionControl_scale (e : R) (p : vec3) :
  expansionControl e p = vscale p (1 + e * 3).
Proof. unfold expansionControl. f_equal. lra. Qed.

Lemma finalPosition_scale (time tid e idx : R) (pos : vec3) :
  finalPosition time tid e idx pos =
  option_map (fun p => vscale p (1 + e * 3)) (templateSwitch time tid idx pos).
Proof.
  unfold finalPosition.
  destruct (templateSwitch time tid idx pos) as [p |]; simpl; [| reflexivity].
  now rewrite expansionControl_scale.
Qed.

Lemma targetPos_scale (tid e idx : R) :
  MainJs.vShader.targetPos tid e idx =
  option_map (fun p => vscale p (1 + e * 2))
    (MainJs.vShader.getShape tid (idx / IZR MainJs.particleCount)).
Proof.
  unfold MainJs.vShader.targetPos.
  destruct (MainJs.vShader.getShape tid (idx / IZR MainJs.particleCount));
    simpl; [| reflexivity].
  do 2 f_equal. lra.
Qed.

(** What [main] hands to the rasteriser is the expanded position under the
    two matrices. *)
Lemma main_gl_Position (time tid e : R) (mv proj : mat4) (idx : R)
    (col pos : vec3) (out : VertexOut) :
  main time tid e mv proj idx col pos = Some out ->
  exists p, finalPosition time tid e idx pos = Some p /\
            gl_Position out = mat_mul proj (mat_mul mv (vec4_of p 1.0)).
Proof.
  unfold main.
  destruct (finalPosition time tid e idx pos) as [p |]; [| discriminate].
  destruct (fdiv _ _); [| discriminate].
  intros E. injection E as <-. exists p. now split.
Qed.

(** C5: the final position is the shape position times
    [1 + expansion * 3], whatever the template: the same factor multiplies
    the result of the template switch for every template id, and so the
    heart, the flower, the ring and the firework alike. The reduced script
    does the same with the constant 2. *)
Theorem expansion_factor_same_for_all_templates :
  forall (time e idx : R) (pos : vec3),
    (forall tid, finalPosition time tid e idx pos =
       option_map (fun p => vscale p (1 + e * 3))
         (templateSwitch time tid idx pos)) /\
    finalPosition time 0 e idx pos =
      option_map (fun p => vscale p (1 + e * 3))
        (heartShape (idx / IZR particleCount)) /\
    finalPosition time 1 e idx pos =
      Some (vscale (flowerShape (idx / IZR particleCount)) (1 + e * 3)) /\
    finalPosition time 2 e idx pos =
      Some (vscale (saturnShape time (idx / IZR particleCount)) (1 + e * 3)) /\
    finalPosition time 3 e idx pos =
      option_map (fun p => vscale p (1 + e * 3))
        (fireworkShape time idx (idx / IZR particleCount)) /\
    (forall tid, MainJs.vShader.targetPos tid e idx =
       option_map (fun p => vscale p (1 + e * 2))
         (MainJs.vShader.getShape tid (idx / IZR MainJs.particleCount))).
Proof.
  intros time e idx pos.
  split; [intros tid; apply finalPosition_scale |].
  rewrite !finalPosition_scale.
  rewrite templateSwitch_heart, templateSwitch_flower,
          templateSwitch_saturn, templateSwitch_firework by lra.
  repeat split. intros tid. apply targetPos_scale.
Qed.

(** Where the final position is defined at both expansions, its length
    does not decrease as the expansion grows from 0 to 1 (the gain, 3, is
    not negative). *)
Lemma expansion_monotone (time tid idx : R) (pos : vec3) (e1 e2 : R)
    (p1 p2 : vec3) :
  0 <= e1 -> e1 <= e2 -> e2 <= 1 ->
  finalPosition time tid e1 idx pos = Some p1 ->
  finalPosition time tid e2 idx pos = Some p2 ->
  vlength p1 <= vlength p2.
Proof.
  intros H0 H12 H1. rewrite !finalPosition_scale.
  destruct (templateSwitch time tid idx pos) as [p |]; [| discriminate].
  simpl. intros E1 E2. injection E1 as <-. injection E2 as <-.
  rewrite !vlength_vscale, !Rabs_pos_eq by lra.
  pose proof (vlength_nonneg p). nra.
Qed.

(** C6 (fails on the code): under the firework template particle 0 has
    no final position at any expansion, at any time, so its length is not
    defined at expansion 0, nor at expansion 1, nor in between, and there
    is nothing that could be non-decreasing; the vertex rendered for it is
    undefined as well. *)
Theorem expansion_monotone_particle0_undefined :
  forall (time e : R) (mv proj : mat4) (col pos : vec3),
    finalPosition time 3 0 0 pos = None /\
    finalPosition time 3 1 0 pos = None /\
    finalPosition time 3 e 0 pos = None /\
    main time 3 e mv proj 0 col pos = None.
Proof.
  intros time e mv proj col pos.
  assert (H : forall x, finalPosition time 3 x 0 pos = None).
  { intros x. unfold finalPosition.
    rewrite templateSwitch_firework by lra.
    now rewrite fireworkShape_particle0. }
  split; [apply H |]. split; [apply H |]. split; [apply H |].
  unfold main. now rewrite H.
Qed.

Lemma finalPosition_heart_0 (time e : R) (pos : vec3) :
  finalPosition time 0 e 0 pos = Some (vscale (mkVec3 0 0.25 0) (1 + e * 3)).
Proof.
  rewrite finalPosition_scale, templateSwitch_heart by lra.
  now rewrite first_index_normalised, heartShape_0.
Qed.

(** The first particle of the heart, from expansion 0 to expansion 1. *)
Lemma expansion_monotone_witness :
  vlength (vscale (mkVec3 0 0.25 0) (1 + 0 * 3)) <=
  vlength (vscale (mkVec3 0 0.25 0) (1 + 1 * 3)).
Proof.
  apply (expansion_monotone 0 0 0 (splat3 0) 0 1); try lra;
    apply finalPosition_heart_0.
Defined.

End Evaluator.

(* ================================================================== *)
(** ** Expansion range and the stored positions *)
(* ================================================================== *)

Section ExpansionRange.
Import GLSL HandParticles HandParticles.particleVertexShader.










Lemma renderVertex_agree (time tid e : R) (mv proj : mat4) (b1 b2 : Buffers)
    (i : nat) :
  (forall k, colors b1 k = colors b2 k) ->
  (forall k, particleIndices b1 k = particleIndices b2 k) ->
  renderVertex time tid e mv proj b1 i = renderVertex time tid e mv proj b2 i.
Proof.
  intros Hc Hi. unfold renderVertex, fetch3. rewrite Hi, !Hc. reflexivity.
Qed.

(** C10: what is rendered for a particle does not depend on the stored
    position buffer. The vertex shader returns the same vertex (position,
    colour, point size) whatever the [position] attribute holds; so does a
    vertex fetched from buffers that differ only in the position array, and
    so do two particle sets created from different streams of random
    numbers. The reduced script never reads its position array. *)
Theorem stored_positions_irrelevant :
  forall (time tid e : R) (mv proj : mat4),
    (forall idx col p1 p2,
       main time tid e mv proj idx col p1 = main time tid e mv proj idx col p2) /\
    (forall positions1 positions2 cols idxs i,
       renderVertex time tid e mv proj (mkBuffers positions1 cols idxs) i =
       renderVertex time tid e mv proj (mkBuffers positions2 cols idxs) i) /\
    (forall random1 random2 i,
       renderVertex time tid e mv proj (createParticles random1) i =
       renderVertex time tid e mv proj (createParticles random2) i) /\
    (forall u idxs positions1 positions2 i,
       MainJs.renderVertex u mv proj (MainJs.mkBuffers idxs positions1) i =
       MainJs.renderVertex u mv proj (MainJs.mkBuffers idxs positions2) i).
Proof.
  intros time tid e mv proj.
  split; [reflexivity |]. split; [reflexivity |]. split; [| reflexivity].
  intros random1 random2 i.
  pose proof (createParticles_random_free random1 random2) as [Hc Hi].
  exact (renderVertex_agree time tid e mv proj _ _ i Hc Hi).
Qed.

End ExpansionRange.

(* ================================================================== *)
(** ** The template selector *)
(* ================================================================== *)

Section TemplateSelector.
Import HandParticles.

Lemma nextTemplate_mod (t : Z) :
  (0 <= t < 4)%Z -> nextTemplate t = ((t + 1) mod 4)%Z.
Proof.
  intros H. unfold nextTemplate. apply Z.rem_mod_nonneg; lia.
Qed.

Lemma nextTemplate_range (t : Z) :
  (0 <= t < 4)%Z -> (0 <= nextTemplate t < 4)%Z.
Proof.
  intros H. rewrite nextTemplate_mod by exact H. apply Z.mod_pos_bound. lia.
Qed.

Lemma nextTemplate_four (t : Z) :
  (0 <= t < 4)%Z ->
  nextTemplate (nextTemplate (nextTemplate (nextTemplate t))) = t.
Proof.
  intros H.
  assert (C : t = 0%Z \/ t = 1%Z \/ t = 2%Z \/ t = 3%Z) by lia.
  destruct C as [-> | [-> | [-> | ->]]]; reflexivity.
Qed.

Lemma animate_templateID (now1 now2 now3 : Z) (s : Script) :
  templateID (animate now1 now2 now3 s) =
  if (6000 <? now2 - lastSwitchTime s)%Z then nextTemplate (templateID s)
  else templateID s.
Proof.
  unfold animate, getGestureData. now destruct (Z.ltb _ _).
Qed.

Lemma animate_uniform_templateID (now1 now2 now3 : Z) (s : Script) :
  u_templateID (animate now1 now2 now3 s) =
  templateID (animate now1 now2 now3 s).
Proof. reflexivity. Qed.

(** The selector and the uniform that mirrors it stay in range along any
    run of frames. *)
Lemma frames_template_range (clock : list (Z * Z * Z)) :
  forall s,
    (0 <= templateID s < 4)%Z -> (0 <= u_templateID s < 4)%Z ->
    (0 <= templateID (frames clock s) < 4)%Z /\
    (0 <= u_templateID (frames clock s) < 4)%Z.
Proof.
  induction clock as [| [[now1 now2] now3] rest IH]; intros s Ht Hu.
  - now split.
  - cbn [frames].
    assert (Hn : (0 <= templateID (animate now1 now2 now3 s) < 4)%Z).
    { rewrite animate_templateID. destruct (Z.ltb _ _);
        [now apply nextTemplate_range | exact Ht]. }
    apply IH; [exact Hn | now rewrite animate_uniform_templateID].
Qed.

(** The reduced script: the remainder and floor of a time that is not
    negative. *)
Lemma js_rem_3_floor (x : R) :
  0 <= x -> JS.floor (JS.rem x 3) = (Zfloor x mod 3)%Z.
Proof.
  intros Hx. unfold JS.floor, JS.rem, JS.trunc.
  destruct (Rle_dec 0 (x / 3)) as [_ | H]; [| lra].
  pose proof (Zfloor_bound (x / 3)) as [Hq1 Hq2].
  set (q := Zfloor (x / 3)) in *.
  replace (x - 3 * IZR q) with (x + IZR (- (3 * q)))
    by (rewrite opp_IZR, mult_IZR; lra).
  rewrite Zfloor_addz.
  pose proof (Zfloor_bound x) as [Hf1 Hf2].
  assert (Hlo : (3 * q <= Zfloor x)%Z).
  { apply Zfloor_lub. rewrite mult_IZR. lra. }
  assert (Hhi : (Zfloor x < 3 * q + 3)%Z).
  { apply lt_IZR. rewrite plus_IZR, mult_IZR. lra. }
  apply Z.mod_unique with (q := q); lia.
Qed.

Lemma MainJs_template (now : R) :
  0 <= now ->
  MainJs.uTemplate (MainJs.animate now) = (Zfloor (now * 0.001 / 4.0) mod 3)%Z.
Proof.
  intros H. unfold MainJs.animate; cbn [MainJs.uTemplate].
  apply js_rem_3_floor. lra.
Qed.

Lemma MainJs_template_shift (now : R) (k : Z) :
  0 <= now -> (0 <= k)%Z ->
  MainJs.uTemplate (MainJs.animate (now + 4000 * IZR k)) =
  ((MainJs.uTemplate (MainJs.animate now) + k) mod 3)%Z.
Proof.
  intros H Hk.
  assert (0 <= IZR k) by now apply IZR_le.
  rewrite !MainJs_template by nra.
  replace ((now + 4000 * IZR k) * 0.001 / 4.0)
    with (now * 0.001 / 4.0 + IZR k) by lra.
  rewrite Zfloor_addz. now rewrite Z.add_mod_idemp_l by lia.
Qed.

(** C7: the template selector steps by one and wraps modulo the template
    count. Along every run of frames from the initial state the selector
    (and the uniform that carries it) lies in [0, 4); a frame either keeps
    it or replaces it by its successor modulo 4, and four successive
    advances bring it back. In the reduced script, for a clock reading that
    is not negative, the selector lies in [0, 3), moves to its successor
    modulo 3 when four seconds pass, and is back after three such steps. *)
Theorem template_selector_cyclic (now : Z) (clock : list (Z * Z * Z)) (t : R) :
  0 <= t ->
  let s := frames clock (initial now) in
  let u := MainJs.uTemplate (MainJs.animate t) in
  (0 <= templateID s < 4)%Z /\
  (0 <= u_templateID s < 4)%Z /\
  (forall now1 now2 now3,
     templateID (animate now1 now2 now3 s) =
     if (6000 <? now2 - lastSwitchTime s)%Z then nextTemplate (templateID s)
     else templateID s) /\
  nextTemplate (templateID s) = ((templateID s + 1) mod 4)%Z /\
  nextTemplate (nextTemplate (nextTemplate (nextTemplate (templateID s)))) =
    templateID s /\
  (0 <= u < 3)%Z /\
  MainJs.uTemplate (MainJs.animate (t + 4000)) = ((u + 1) mod 3)%Z /\
  MainJs.uTemplate (MainJs.animate (t + 4000 + 4000 + 4000)) = u.
Proof.
  intros Ht s u.
  destruct (frames_template_range clock (initial now)) as [Hs Hu];
    [cbn; lia | cbn; lia |].
  fold s in Hs, Hu.
  assert (Hr : (0 <= u < 3)%Z).
  { subst u. rewrite MainJs_template by exact Ht. apply Z.mod_pos_bound. lia. }
  split; [exact Hs |]. split; [exact Hu |].
  split; [intros; apply animate_templateID |].
  split; [now apply nextTemplate_mod |].
  split; [now apply nextTemplate_four |].
  split; [exact Hr |].
  split.
  - replace (t + 4000) with (t + 4000 * IZR 1) by lra.
    now rewrite MainJs_template_shift by (lra || lia).
  - replace (t + 4000 + 4000 + 4000) with (t + 4000 * IZR 3) by lra.
    rewrite MainJs_template_shift by (lra || lia). fold u.
    rewrite <- (Z.mod_small u 3) at 2 by exact Hr.
    rewrite <- Z.add_mod_idemp_r by lia. rewrite Z.mod_same by lia.
    now rewrite Z.add_0_r.
Qed.

(** One frame, eight seconds after loading, which switches the template. *)
Lemma template_selector_cyclic_witness :
  (0 <= templateID (frames [(1000, 8000, 8000)%Z] (initial 0)) < 4)%Z.
Proof.
  apply (template_selector_cyclic 0 [(1000, 8000, 8000)%Z] 0). lra.
Defined.

End TemplateSelector.

(* ================================================================== *)
(** ** Colour blending in the fragment shader *)
(* ================================================================== *)

Section Colour.
Import GLSL HandParticles HandParticles.particleFragmentShader.

(** The colour part of the fragment is the blend of the tint towards the
    accent with the weight of the branch taken. *)
Lemma main_colour (time tid : R) (vColor : vec3) (coord : vec2) :
  xyz (main time tid vColor coord) =
  mix vColor (accent tid) (mixWeight time tid).
Proof.
  unfold main, accent, mixWeight.
  destruct (Req_dec_T tid 3.0); reflexivity.
Qed.

Lemma mixWeight_firework (time : R) :
  mixWeight time 3 = sin (time * 5.0) * 0.5 + 0.5 /\ 0 <= mixWeight time 3 <= 1.
Proof.
  unfold mixWeight. destruct (Req_dec_T 3 3.0) as [_ | H]; [| lra].
  pose proof (SIN_bound (time * 5.0)). split; [reflexivity | lra].
Qed.

Lemma mixWeight_other (time tid : R) :
  tid <> 3 ->
  mixWeight time tid = sin time * 0.2 /\ -0.2 <= mixWeight time tid <= 0.2.
Proof.
  intros H. unfold mixWeight. destruct (Req_dec_T tid 3.0) as [E | _]; [lra |].
  pose proof (SIN_bound time). split; [reflexivity | lra].
Qed.

(** A blend with a weight in [0, 1] stays between its endpoints. *)
Lemma blend_between (a b w : R) :
  0 <= w <= 1 -> Spec.between a b (a * (1 - w) + b * w).
Proof.
  intros Hw. unfold Spec.between.
  destruct (Rle_dec a b) as [Hab | Hab].
  - rewrite Rmin_left, Rmax_right by lra. nra.
  - rewrite Rmin_right, Rmax_left by lra. nra.
Qed.

(** C8 (as stated, refuted): under the heart template at time 5 the mix
    weight is negative, and the green channel of the default tint
    (0.2, 0.4, 1.0) is pushed above both the tint's 0.4 and the accent's
    0. *)
Lemma mix_weight_negative :
  mixWeight 5 0 < 0 /\
  ~ Spec.between 0.4 0.0
      (vy (xyz (main 5 0 (mkVec3 0.2 0.4 1.0) (mkVec2 0.5 0.5)))).
Proof.
  assert (Hs : sin 5 < 0) by (pose proof PI_tight; apply sin_lt_0; lra).
  destruct (mixWeight_other 5 0) as [Hw _]; [lra |].
  split; [rewrite Hw; lra |].
  rewrite main_colour, Hw. unfold accent.
  destruct (Req_dec_T 0 3.0) as [E | _]; [lra |].
  unfold Spec.between, mix, vadd, vscale; cbn [vx vy vz].
  rewrite Rmax_left by lra. lra.
Qed.

(** C8 (amended): the fragment colour is the tint blended towards the
    accent of the template. Under the firework template the weight is
    [0.5 + 0.5 sin(5 time)], lies in [0, 1], and every blended channel lies
    between the tint's and the accent's. Under any other template the
    weight is [0.2 sin(time)] and lies in [-0.2, 0.2]. *)
Theorem mix_weight_bounds (time tid : R) (vColor : vec3) (coord : vec2) :
  tid <> 3 ->
  (0 <= mixWeight time 3 <= 1 /\
   mixWeight time 3 = sin (time * 5.0) * 0.5 + 0.5 /\
   let c := xyz (main time 3 vColor coord) in
   c = mix vColor (mkVec3 1.0 0.5 0.0) (mixWeight time 3) /\
   Spec.between (vx vColor) 1.0 (vx c) /\
   Spec.between (vy vColor) 0.5 (vy c) /\
   Spec.between (vz vColor) 0.0 (vz c)) /\
  (-0.2 <= mixWeight time tid <= 0.2 /\
   mixWeight time tid = sin time * 0.2 /\
   xyz (main time tid vColor coord) =
     mix vColor (mkVec3 1.0 0.0 0.0) (mixWeight time tid)).
Proof.
  intros Htid.
  destruct (mixWeight_firework time) as [Hf Hfr].
  destruct (mixWeight_other time tid Htid) as [Ho Hor].
  split.
  - split; [exact Hfr |]. split; [exact Hf |].
    cbv zeta. rewrite main_colour. unfold accent.
    destruct (Req_dec_T 3 3.0) as [_ | H]; [| lra].
    split; [reflexivity |].
    unfold mix, vadd, vscale; cbn [vx vy vz].
    repeat split; apply blend_between; exact Hfr.
  - split; [exact Hor |]. split; [exact Ho |].
    rewrite main_colour. unfold accent.
    destruct (Req_dec_T tid 3.0) as [E | _]; [lra | reflexivity].
Qed.

(** The heart template at time 5. *)
Lemma mix_weight_bounds_witness :
  -0.2 <= mixWeight 5 0 <= 0.2.
Proof.
  apply (mix_weight_bounds 5 0 (mkVec3 0.2 0.4 1.0) (mkVec2 0.5 0.5)). lra.
Defined.

End Colour.

(* ================================================================== *)
(** ** The wrap boundary *)
(* ================================================================== *)

Section WrapBoundary.
Import GLSL HandParticles HandParticles.particleVertexShader.

Lemma sin_lipschitz (p q : R) : Rabs (sin p - sin q) <= Rabs (p - q).
Proof.
  rewrite form4, !Rabs_mult, (Rabs_pos_eq 2) by lra.
  pose proof (Rabs_sin_le ((p - q) / 2)) as Hs.
  replace (Rabs ((p - q) / 2)) with (Rabs (p - q) / 2) in Hs
    by (unfold Rdiv; rewrite Rabs_mult, (Rabs_pos_eq (/ 2)) by lra; reflexivity).
  assert (Hc : Rabs (cos ((p + q) / 2)) <= 1)
    by (apply Rabs_le; pose proof (COS_bound ((p + q) / 2)); lra).
  pose proof (Rabs_pos (cos ((p + q) / 2))).
  pose proof (Rabs_pos (sin ((p - q) / 2))).
  nra.
Qed.

(** A bound on [|x|] as a pair of inequalities, for linear arithmetic. *)
Lemma Rabs_bounds (x b : R) : Rabs x <= b -> - b <= x <= b.
Proof. unfold Rabs. destruct (Rcase_abs x); lra. Qed.

Lemma sin_near_0 (k a : R) : 0 <= k -> - (k * Rabs a) <= sin (k * a) <= k * Rabs a.
Proof.
  intros Hk. apply Rabs_bounds.
  eapply Rle_trans; [apply Rabs_sin_le |].
  rewrite Rabs_mult, (Rabs_pos_eq k) by exact Hk. lra.
Qed.

Lemma cos_near_0 (k a : R) :
  0 <= k -> - (k * Rabs a) <= cos (k * a) - 1 <= k * Rabs a.
Proof.
  intros Hk. apply Rabs_bounds.
  eapply Rle_trans; [apply Rabs_cos1_le |].
  rewrite Rabs_mult, (Rabs_pos_eq k) by exact Hk. lra.
Qed.

(** The literal [6.283185307] falls short of a full turn by less than
    [2e-10]. *)
Lemma turn_gap : 0 < 2 * PI - 6.283185307 < 2 / 10 ^ 10.
Proof. pose proof PI_tight. lra. Qed.

(** Just below index 1 the angle is a full turn plus a small negative
    remainder. *)
Lemma angle_below_one (eps : R) :
  0 < eps < 1 / 10 ^ 8 ->
  let d := (1 - eps) * 6.283185307 - 2 * PI in
  Rabs d < 7 / 10 ^ 8.
Proof.
  intros He d. pose proof turn_gap. subst d.
  apply Rabs_def1; lra.
Qed.

Lemma sin_mult_turn (k : nat) (a : R) :
  sin (INR k * a) = sin (INR k * (a - 2 * PI)).
Proof.
  rewrite <- (sin_turns (INR k * a) k). f_equal. ring.
Qed.

Lemma cos_mult_turn (k : nat) (a : R) :
  cos (INR k * a) = cos (INR k * (a - 2 * PI)).
Proof.
  rewrite <- (cos_turns (INR k * a) k). f_equal. ring.
Qed.

(** The flower, the ring and the heart's [y] in terms of the angle taken
    back by a full turn. *)
Lemma flowerShape_turn (i : R) :
  let d := i * 6.283185307 - 2 * PI in
  flowerShape i =
  vscale (mkVec3 ((1.0 + 0.5 * sin (INR 5 * d)) * cos (INR 1 * d))
                 ((1.0 + 0.5 * sin (INR 5 * d)) * sin (INR 1 * d))
                 (0.5 * cos (INR 3 * d))) 1.5.
Proof.
  intros d. subst d. rewrite <- !sin_mult_turn, <- !cos_mult_turn.
  unfold flowerShape. simpl INR.
  replace (i * 6.283185307 * 5.0) with ((1 + 1 + 1 + 1 + 1) * (i * 6.283185307)) by lra.
  replace (i * 6.283185307 * 3.0) with ((1 + 1 + 1) * (i * 6.283185307)) by lra.
  rewrite !Rmult_1_l. reflexivity.
Qed.

Lemma saturnShape_turn (time i : R) :
  let d := i * 6.283185307 - 2 * PI in
  saturnShape time i =
  mkVec3 (2.5 * cos (INR 1 * d)) (2.5 * sin (INR 1 * d))
         (sin (time * 0.5 + i * 100.0) * 0.1).
Proof.
  intros d. subst d. rewrite <- !sin_mult_turn, <- !cos_mult_turn.
  unfold saturnShape. simpl INR. rewrite !Rmult_1_l. reflexivity.
Qed.

Lemma heart_y_turn (a : R) :
  let d := a - 2 * PI in
  heart_y a =
  13.0 * cos (INR 1 * d) - 5.0 * cos (INR 2 * d)
  - 2.0 * cos (INR 3 * d) - cos (INR 4 * d).
Proof.
  intros d. subst d. rewrite <- !cos_mult_turn.
  unfold heart_y. simpl INR.
  replace (2.0 * a) with ((1 + 1) * a) by lra.
  replace (3.0 * a) with ((1 + 1 + 1) * a) by lra.
  replace (4.0 * a) with ((1 + 1 + 1 + 1) * a) by lra.
  rewrite !Rmult_1_l. reflexivity.
Qed.

Lemma flowerShape_0 : flowerShape 0 = mkVec3 1.5 0 0.75.
Proof.
  unfold flowerShape. rewrite !Rmult_0_l, sin_0, cos_0.
  unfold vscale; cbn [vx vy vz]. f_equal; lra.
Qed.

Lemma saturnShape_0 (time : R) :
  saturnShape time 0 = mkVec3 2.5 0 (sin (time * 0.5) * 0.1).
Proof.
  unfold saturnShape. rewrite !Rmult_0_l, sin_0, cos_0, Rplus_0_r.
  f_equal; lra.
Qed.

Lemma heart_y_0 : heart_y (0 * 6.283185307) = 5.
Proof.
  unfold heart_y. rewrite !Rmult_0_l, !Rmult_0_r, cos_0. lra.
Qed.

(** The facts about the small angle [d] that the bounds below use. *)
Lemma small_angle_facts (d : R) (k : nat) :
  - (INR k * Rabs d) <= sin (INR k * d) <= INR k * Rabs d /\
  - (INR k * Rabs d) <= cos (INR k * d) - 1 <= INR k * Rabs d /\
  -1 <= cos (INR k * d) <= 1.
Proof.
  split; [apply sin_near_0, pos_INR |].
  split; [apply cos_near_0, pos_INR | apply COS_bound].
Qed.

Lemma flower_x_seamless :
  Spec.seamless (1 / 10 ^ 6) (fun i => vx (flowerShape i)).
Proof.
  exists (1 / 10 ^ 8). split; [lra |]. intros eps He. 
  rewrite flowerShape_turn, flowerShape_0. cbn [vx vscale].
  pose proof (angle_below_one eps He) as Hd. cbv zeta in Hd.
  set (d := (1 - eps) * 6.283185307 - 2 * PI) in *.
  pose proof (Rabs_pos d).
  destruct (small_angle_facts d 5) as [S5 _].
  destruct (small_angle_facts d 1) as [_ [C1 B1]].
  simpl INR in *.
  apply Rabs_def1; nra.
Qed.

Lemma sin_half_lower : 0.4 <= sin (1 / 2).
Proof.
  pose proof PI_tight.
  destruct (SIN (1 / 2)) as [Hl _]; [lra | lra |].
  unfold sin_lb, sin_approx in Hl. cbn [sum_f_R0] in Hl.
  unfold sin_term in Hl. rewrite !INR_IZR_INZ in Hl. simpl in Hl. lra.
Qed.

(** On [[1/2, 13/20]] the sine is at least 0.4. *)
Lemma sin_lower (v : R) : 1 / 2 <= v <= 13 / 20 -> 0.4 <= sin v.
Proof.
  intros Hv. pose proof PI_tight. pose proof sin_half_lower.
  assert (sin (1 / 2) <= sin v) by (apply sin_incr_1; lra). lra.
Qed.

(** A hundred radians is about 0.53 short of sixteen turns: just below
    index 1 the sine in the ring's wave is below -0.4. *)
Lemma sin_hundred (eps : R) :
  0 <= eps <= 1 / 1000 -> sin (0 * 0.5 + (1 - eps) * 100.0) <= -0.4.
Proof.
  intros He. pose proof PI_tight.
  rewrite <- (sin_turns _ 16).
  set (w := 0 * 0.5 + (1 - eps) * 100.0 - 2 * INR 16 * PI).
  assert (Hw : -13 / 20 <= w <= -1 / 2) by (subst w; simpl INR; lra).
  replace w with (- (- w)) by lra. rewrite sin_neg.
  pose proof (sin_lower (- w)). lra.
Qed.

(** Solves a seam bound once the coordinate is written with the small
    angle [d]: the facts about [d] are put in the context for [nra]. *)
Ltac small_angle d :=
  pose proof (Rabs_pos d);
  pose proof (small_angle_facts d 1);
  pose proof (small_angle_facts d 2);
  pose proof (small_angle_facts d 3);
  pose proof (small_angle_facts d 4);
  pose proof (small_angle_facts d 5);
  pose proof (small_angle_facts d 6);
  simpl INR in *;
  apply Rabs_def1; nra.

Ltac below_one eps He :=
  exists (1 / 10 ^ 8); split; [lra |]; intros eps He;
  pose proof (angle_below_one eps He) as Hd; cbv zeta in Hd.

Lemma flower_y_seamless :
  Spec.seamless (1 / 10 ^ 6) (fun i => vy (flowerShape i)).
Proof.
  below_one eps He.
  rewrite flowerShape_turn, flowerShape_0. cbn [vy vscale].
  set (d := (1 - eps) * 6.283185307 - 2 * PI) in *. small_angle d.
Qed.

Lemma flower_z_seamless :
  Spec.seamless (1 / 10 ^ 6) (fun i => vz (flowerShape i)).
Proof.
  below_one eps He.
  rewrite flowerShape_turn, flowerShape_0. cbn [vz vscale].
  set (d := (1 - eps) * 6.283185307 - 2 * PI) in *. small_angle d.
Qed.

Lemma saturn_x_seamless (time : R) :
  Spec.seamless (1 / 10 ^ 6) (fun i => vx (saturnShape time i)).
Proof.
  below_one eps He.
  rewrite saturnShape_turn, saturnShape_0. cbn [vx].
  set (d := (1 - eps) * 6.283185307 - 2 * PI) in *. small_angle d.
Qed.

Lemma saturn_y_seamless (time : R) :
  Spec.seamless (1 / 10 ^ 6) (fun i => vy (saturnShape time i)).
Proof.
  below_one eps He.
  rewrite saturnShape_turn, saturnShape_0. cbn [vy].
  set (d := (1 - eps) * 6.283185307 - 2 * PI) in *. small_angle d.
Qed.

Lemma heart_y_seamless :
  Spec.seamless (1 / 10 ^ 6) (fun i => heart_y (i * 6.283185307) * 0.05).
Proof.
  below_one eps He.
  rewrite heart_y_turn, heart_y_0.
  set (d := (1 - eps) * 6.283185307 - 2 * PI) in *. small_angle d.
Qed.

(** Where the heart is defined, its [y] is [heart_y] scaled and its [z]
    is 0. *)
Lemma heartShape_y (i : R) (p : vec3) :
  heartShape i = Some p ->
  vy p = heart_y (i * 6.283185307) * 0.05 /\ vz p = 0.
Proof.
  unfold heartShape. destruct (heart_x _); [| discriminate].
  intros E. injection E as <-. unfold vscale; cbn [vy vz]. split; lra.
Qed.

(** Just below index 1 the sine of the heart's angle is negative and the
    heart has no defined position. *)
Lemma heartShape_below_one (eps : R) :
  0 < eps <= 1 / 4 -> heartShape (1 - eps) = None.
Proof.
  intros He. unfold heartShape, heart_x.
  rewrite pow_negative_base; [reflexivity |].
  pose proof PI_tight. apply sin_lt_0; lra.
Qed.

(** The ring's wave tends to [0.1 sin(0.5 time + 100)] just below
    index 1. *)
Lemma saturn_z_limit (time : R) :
  Spec.tends_at_wrap (fun i => vz (saturnShape time i))
                     (sin (time * 0.5 + 100) * 0.1).
Proof.
  intros tol Htol. exists (tol / 10). split; [lra |]. intros eps He.
  unfold saturnShape; cbn [vz].
  pose proof (sin_lipschitz (time * 0.5 + (1 - eps) * 100.0) (time * 0.5 + 100)) as HL.
  replace (time * 0.5 + (1 - eps) * 100.0 - (time * 0.5 + 100))
    with (- (100 * eps)) in HL by lra.
  rewrite Rabs_Ropp, (Rabs_pos_eq (100 * eps)) in HL by lra.
  apply Rabs_bounds in HL. apply Rabs_def1; lra.
Qed.

(** C2 (as stated, refuted): at time 0 the ring's [z] is 0 at index 0 and
    stays more than 0.04 away from it just below index 1; no tolerance
    up to 1/25 is met. *)
Lemma saturn_wave_seam :
  ~ Spec.seamless (1 / 25) (fun i => vz (saturnShape 0 i)).
Proof.
  intros [delta [Hdelta H]].
  set (eps := Rmin (delta / 2) (1 / 1000)).
  assert (He : 0 < eps < delta /\ eps <= 1 / 1000).
  { subst eps. pose proof (Rmin_l (delta / 2) (1 / 1000)).
    pose proof (Rmin_r (delta / 2) (1 / 1000)).
    assert (0 < Rmin (delta / 2) (1 / 1000)) by (apply Rmin_glb_lt; lra).
    lra. }
  specialize (H eps (proj1 He)). cbv beta in H.
  rewrite saturnShape_0 in H. unfold saturnShape in H; cbn [vz] in H.
  rewrite Rmult_0_l, sin_0 in H.
  pose proof (sin_hundred eps ltac:(lra)) as Hs.
  rewrite Rmult_0_l in Hs.
  apply Rabs_def2 in H. lra.
Qed.

End WrapBoundary.

Section WrapReduced.
Import GLSL MainJs.vShader.

(** The reduced script writes the turn as [6.28318], short by about
    [5.3e-6]. *)
Lemma turn_gap_js : 0 < 2 * PI - 6.28318 < 54 / 10 ^ 7.
Proof. pose proof PI_tight. lra. Qed.

Lemma angle_below_one_js (eps : R) :
  0 < eps < 1 / 10 ^ 6 ->
  let d := (1 - eps) * 6.28318 - 2 * PI in
  Rabs d < 12 / 10 ^ 6.
Proof.
  intros He d. pose proof turn_gap_js. subst d.
  apply Rabs_def1; lra.
Qed.

Lemma getShape_flower_turn (i : R) :
  let d := i * 6.28318 - 2 * PI in
  getShape 1 i =
  Some (mkVec3 ((5.0 + 2.0 * sin (INR 6 * d)) * cos (INR 1 * d))
               ((5.0 + 2.0 * sin (INR 6 * d)) * sin (INR 1 * d))
               (sin (i * 10.0))).
Proof.
  intros d. subst d. rewrite <- !sin_mult_turn, <- !cos_mult_turn.
  unfold getShape.
  destruct (Rlt_dec 1 0.5); [lra |]. destruct (Rlt_dec 1 1.5); [| lra].
  simpl INR.
  replace (i * 6.28318 * 6.0) with ((1 + 1 + 1 + 1 + 1 + 1) * (i * 6.28318)) by lra.
  rewrite !Rmult_1_l. reflexivity.
Qed.

Lemma getShape_ring_turn (i : R) :
  let d := i * 6.28318 - 2 * PI in
  getShape 2 i =
  Some (mkVec3 (8.0 * cos (INR 1 * d)) (8.0 * sin (INR 1 * d) * 0.3)
               (8.0 * sin (INR 1 * d))).
Proof.
  intros d. subst d. rewrite <- !sin_mult_turn, <- !cos_mult_turn.
  unfold getShape.
  destruct (Rlt_dec 2 0.5); [lra |]. destruct (Rlt_dec 2 1.5); [lra |].
  simpl INR. rewrite !Rmult_1_l. reflexivity.
Qed.

Lemma getShape_flower_0 : getShape 1 0 = Some (mkVec3 5 0 0).
Proof.
  unfold getShape.
  destruct (Rlt_dec 1 0.5); [lra |]. destruct (Rlt_dec 1 1.5); [| lra].
  rewrite !Rmult_0_l, sin_0, cos_0. do 2 f_equal; lra.
Qed.

Lemma getShape_ring_0 : getShape 2 0 = Some (mkVec3 8 0 0).
Proof.
  unfold getShape.
  destruct (Rlt_dec 2 0.5); [lra |]. destruct (Rlt_dec 2 1.5); [lra |].
  rewrite !Rmult_0_l, sin_0, cos_0. do 2 f_equal; lra.
Qed.

Ltac small_angle_js d :=
  pose proof (Rabs_pos d);
  pose proof (small_angle_facts d 1);
  pose proof (small_angle_facts d 6);
  simpl INR in *;
  apply Rabs_def1; nra.

Ltac below_one_js eps He :=
  exists (1 / 10 ^ 6); split; [lra |]; intros eps He;
  pose proof (angle_below_one_js eps He) as Hd; cbv zeta in Hd;
  unfold Spec.coordinate.

Lemma js_flower_x_seamless :
  Spec.seamless (1 / 10 ^ 3) (Spec.coordinate vx (getShape 1)).
Proof.
  below_one_js eps He.
  rewrite getShape_flower_turn, getShape_flower_0. cbn [vx].
  set (d := (1 - eps) * 6.28318 - 2 * PI) in *. small_angle_js d.
Qed.

Lemma js_flower_y_seamless :
  Spec.seamless (1 / 10 ^ 3) (Spec.coordinate vy (getShape 1)).
Proof.
  below_one_js eps He.
  rewrite getShape_flower_turn, getShape_flower_0. cbn [vy].
  set (d := (1 - eps) * 6.28318 - 2 * PI) in *. small_angle_js d.
Qed.

Lemma js_ring_x_seamless :
  Spec.seamless (1 / 10 ^ 3) (Spec.coordinate vx (getShape 2)).
Proof.
  below_one_js eps He.
  rewrite getShape_ring_turn, getShape_ring_0. cbn [vx].
  set (d := (1 - eps) * 6.28318 - 2 * PI) in *. small_angle_js d.
Qed.

Lemma js_ring_y_seamless :
  Spec.seamless (1 / 10 ^ 3) (Spec.coordinate vy (getShape 2)).
Proof.
  below_one_js eps He.
  rewrite getShape_ring_turn, getShape_ring_0. cbn [vy].
  set (d := (1 - eps) * 6.28318 - 2 * PI) in *. small_angle_js d.
Qed.

Lemma js_ring_z_seamless :
  Spec.seamless (1 / 10 ^ 3) (Spec.coordinate vz (getShape 2)).
Proof.
  below_one_js eps He.
  rewrite getShape_ring_turn, getShape_ring_0. cbn [vz].
  set (d := (1 - eps) * 6.28318 - 2 * PI) in *. small_angle_js d.
Qed.

(** Ten radians is about 0.575 past a turn and a half. *)
Lemma sin_ten (eps : R) :
  0 <= eps <= 1 / 1000 -> sin ((1 - eps) * 10.0) <= -0.4.
Proof.
  intros He. pose proof PI_tight.
  rewrite <- (sin_turns _ 1).
  set (w := (1 - eps) * 10.0 - 2 * INR 1 * PI - PI).
  replace ((1 - eps) * 10.0 - 2 * INR 1 * PI) with (w + PI) by (subst w; lra).
  rewrite neg_sin.
  assert (Hw : 1 / 2 <= w <= 13 / 20) by (subst w; simpl INR; lra).
  pose proof (sin_lower w Hw). lra.
Qed.

Lemma js_flower_z_limit :
  Spec.tends_at_wrap (Spec.coordinate vz (getShape 1)) (sin 10).
Proof.
  intros tol Htol. exists (tol / 10). split; [lra |]. intros eps He.
  unfold Spec.coordinate. rewrite getShape_flower_turn. cbn [vz].
  pose proof (sin_lipschitz ((1 - eps) * 10.0) 10) as HL.
  replace ((1 - eps) * 10.0 - 10) with (- (10 * eps)) in HL by lra.
  rewrite Rabs_Ropp, (Rabs_pos_eq (10 * eps)) in HL by lra.
  apply Rabs_bounds in HL. apply Rabs_def1; lra.
Qed.

(** In the reduced script the flower's [z], [sin(10 i)], is 0 at index 0
    and below -0.4 just below index 1. *)
Lemma js_flower_wave_seam :
  ~ Spec.seamless (2 / 5) (Spec.coordinate vz (getShape 1)).
Proof.
  intros [delta [Hdelta H]].
  set (eps := Rmin (delta / 2) (1 / 1000)).
  assert (He : 0 < eps < delta /\ eps <= 1 / 1000).
  { subst eps. pose proof (Rmin_l (delta / 2) (1 / 1000)).
    pose proof (Rmin_r (delta / 2) (1 / 1000)).
    assert (0 < Rmin (delta / 2) (1 / 1000)) by (apply Rmin_glb_lt; lra).
    lra. }
  specialize (H eps (proj1 He)). unfold Spec.coordinate in H.
  rewrite getShape_flower_0, getShape_flower_turn in H. cbn [vz] in H.
  pose proof (sin_ten eps ltac:(lra)) as Hs.
  apply Rabs_def2 in H. lra.
Qed.

End WrapReduced.

Section WrapClaim.
Import GLSL HandParticles HandParticles.particleVertexShader.

(** C2 (amended): at the wrap boundary the flower has no seam in any
    coordinate, the ring none in [x] and [y], and the heart none in [y]:
    just below index 1 each stays within a millionth of its value at
    index 0. The ring's [z] is the wave [0.1 sin(0.5 time + 100 index)]:
    it is [0.1 sin(0.5 time)] at index 0 and tends to
    [0.1 sin(0.5 time + 100)] just below index 1. In the reduced script the
    ring has no seam in any coordinate and the flower none in [x] and [y]
    (within a thousandth), while the flower's [z], [sin(10 index)], is 0 at
    index 0 and tends to [sin 10] just below index 1. *)
Theorem wrap_boundary (time : R) :
  Spec.seamless (1 / 10 ^ 6) (fun i => vx (flowerShape i)) /\
  Spec.seamless (1 / 10 ^ 6) (fun i => vy (flowerShape i)) /\
  Spec.seamless (1 / 10 ^ 6) (fun i => vz (flowerShape i)) /\
  Spec.seamless (1 / 10 ^ 6) (fun i => vx (saturnShape time i)) /\
  Spec.seamless (1 / 10 ^ 6) (fun i => vy (saturnShape time i)) /\
  Spec.seamless (1 / 10 ^ 6) (fun i => heart_y (i * 6.283185307) * 0.05) /\
  vz (saturnShape time 0) = sin (time * 0.5) * 0.1 /\
  Spec.tends_at_wrap (fun i => vz (saturnShape time i))
                     (sin (time * 0.5 + 100) * 0.1) /\
  Spec.seamless (1 / 10 ^ 3) (Spec.coordinate vx (MainJs.vShader.getShape 2)) /\
  Spec.seamless (1 / 10 ^ 3) (Spec.coordinate vy (MainJs.vShader.getShape 2)) /\
  Spec.seamless (1 / 10 ^ 3) (Spec.coordinate vz (MainJs.vShader.getShape 2)) /\
  Spec.seamless (1 / 10 ^ 3) (Spec.coordinate vx (MainJs.vShader.getShape 1)) /\
  Spec.seamless (1 / 10 ^ 3) (Spec.coordinate vy (MainJs.vShader.getShape 1)) /\
  Spec.coordinate vz (MainJs.vShader.getShape 1) 0 = 0 /\
  Spec.tends_at_wrap (Spec.coordinate vz (MainJs.vShader.getShape 1)) (sin 10).
Proof.
  split; [exact flower_x_seamless |].
  split; [exact flower_y_seamless |].
  split; [exact flower_z_seamless |].
  split; [exact (saturn_x_seamless time) |].
  split; [exact (saturn_y_seamless time) |].
  split; [exact heart_y_seamless |].
  split; [now rewrite saturnShape_0 |].
  split; [exact (saturn_z_limit time) |].
  split; [exact js_ring_x_seamless |].
  split; [exact js_ring_y_seamless |].
  split; [exact js_ring_z_seamless |].
  split; [exact js_flower_x_seamless |].
  split; [exact js_flower_y_seamless |].
  split; [| exact js_flower_z_limit].
  unfold Spec.coordinate. now rewrite getShape_flower_0.
Qed.

End WrapClaim.

(* ================================================================== *)
(** ** The envelope of the shapes *)
(* ================================================================== *)

Section Envelopes.
Import GLSL HandParticles HandParticles.particleVertexShader.

Lemma sin_cos_square (a : R) : sin a * sin a + cos a * cos a = 1.
Proof. pose proof (sin2_cos2 a) as H. unfold Rsqr in H. exact H. Qed.

Lemma vlength_le (v : vec3) (b : R) :
  0 <= b -> dot v v <= b * b -> vlength v <= b.
Proof.
  intros Hb Hd. unfold vlength.
  rewrite <- (sqrt_square b) by exact Hb.
  now apply sqrt_le_1_alt.
Qed.

Lemma vlength_square (v : vec3) : vlength v * vlength v = dot v v.
Proof. unfold vlength. apply sqrt_sqrt, dot_self_nonneg. Qed.

Lemma saturnShape_ring (time index : R) :
  let p := saturnShape time index in
  vx p * vx p + vy p * vy p = 6.25 /\ -0.1 <= vz p <= 0.1.
Proof.
  unfold saturnShape; cbn [vx vy vz]; cbv zeta.
  pose proof (sin_cos_square (index * 6.283185307)).
  pose proof (SIN_bound (time * 0.5 + index * 100.0)).
  split; nra.
Qed.

Lemma flowerShape_annulus (index : R) :
  let p := flowerShape index in
  0.5625 <= vx p * vx p + vy p * vy p <= 5.0625 /\ -0.75 <= vz p <= 0.75.
Proof.
  unfold flowerShape, vscale; cbn [vx vy vz]; cbv zeta.
  set (a := index * 6.283185307).
  pose proof (sin_cos_square a) as Hsc.
  pose proof (SIN_bound (a * 5.0)) as Hs.
  pose proof (COS_bound (a * 3.0)) as Hc.
  set (r := 1.0 + 0.5 * sin (a * 5.0)) in *.
  assert (Hr : 0.5 <= r <= 1.5) by (subst r; lra).
  assert (Hxy : r * cos a * (r * cos a) + r * sin a * (r * sin a) = r * r).
  { rewrite <- (Rmult_1_r (r * r)), <- Hsc. ring. }
  assert (Hrr : 0.25 <= r * r <= 2.25) by nra.
  split; [nra | lra].
Qed.

Lemma heartShape_box (index : R) (p : vec3) :
  heartShape index = Some p ->
  0 <= vx p <= 0.8 /\ -1.05 <= vy p <= 1.05 /\ vz p = 0.
Proof.
  unfold heartShape, heart_x, heart_y.
  set (a := index * 6.283185307).
  destruct (Rlt_dec (sin a) 0) as [Hn | Hn].
  - rewrite pow_negative_base by exact Hn. discriminate.
  - rewrite pow_cube by lra. cbn [option_map].
    intros E. injection E as <-. unfold vscale; cbn [vx vy vz].
    pose proof (SIN_bound a) as Hs.
    pose proof (COS_bound a). pose proof (COS_bound (2.0 * a)).
    pose proof (COS_bound (3.0 * a)). pose proof (COS_bound (4.0 * a)).
    assert (H3 : 0 <= sin a ^ 3 <= 1).
    { simpl. assert (0 <= sin a * sin a <= 1) by nra. nra. }
    split; [lra |]. split; lra.
Qed.

(** The ring is a circle of radius 2.5 in the plane of the first two
    coordinates, with a wave of height at most 0.1 across it, at every
    time. *)
Theorem saturn_ring_envelope (time index : R) :
  let p := saturnShape time index in
  vx p * vx p + vy p * vy p = 6.25 /\ -0.1 <= vz p <= 0.1.
Proof.
  unfold saturnShape; cbn [vx vy vz]; cbv zeta.
  pose proof (sin_cos_square (index * 6.283185307)).
  pose proof (SIN_bound (time * 0.5 + index * 100.0)).
  split; nra.
Qed.

(** The flower stays in the annulus between the radii 0.75 and 2.25 of
    the plane (squared: 0.5625 and 5.0625), and within 0.75 of it. *)
Theorem flower_envelope (index : R) :
  let p := flowerShape index in
  0.5625 <= vx p * vx p + vy p * vy p <= 5.0625 /\ -0.75 <= vz p <= 0.75.
Proof.
  unfold flowerShape, vscale; cbn [vx vy vz]; cbv zeta.
  set (a := index * 6.283185307).
  pose proof (sin_cos_square a) as Hsc.
  pose proof (SIN_bound (a * 5.0)) as Hs.
  pose proof (COS_bound (a * 3.0)) as Hc.
  set (r := 1.0 + 0.5 * sin (a * 5.0)) in *.
  assert (Hr : 0.5 <= r <= 1.5) by (subst r; lra).
  assert (Hxy : r * cos a * (r * cos a) + r * sin a * (r * sin a) = r * r).
  { rewrite <- (Rmult_1_r (r * r)), <- Hsc. ring. }
  assert (Hrr : 0.25 <= r * r <= 2.25) by nra.
  split; [nra | lra].
Qed.

(** Where the heart is defined it lies in the half-plane of non-negative
    [x]: within [0, 0.8] in [x], within 1.05 in [y], and flat. *)
Theorem heart_envelope (index : R) (p : vec3) :
  heartShape index = Some p ->
  0 <= vx p <= 0.8 /\ -1.05 <= vy p <= 1.05 /\ vz p = 0.
Proof.
  unfold heartShape, heart_x, heart_y.
  set (a := index * 6.283185307).
  destruct (Rlt_dec (sin a) 0) as [Hn | Hn].
  - rewrite pow_negative_base by exact Hn. discriminate.
  - rewrite pow_cube by lra. cbn [option_map].
    intros E. injection E as <-. unfold vscale; cbn [vx vy vz].
    pose proof (SIN_bound a) as Hs.
    pose proof (COS_bound a). pose proof (COS_bound (2.0 * a)).
    pose proof (COS_bound (3.0 * a)). pose proof (COS_bound (4.0 * a)).
    assert (H3 : 0 <= sin a ^ 3 <= 1).
    { simpl. assert (0 <= sin a * sin a <= 1) by nra. nra. }
    split; [lra |]. split; lra.
Qed.

(** The first particle, at the top notch of the heart. *)
Lemma heart_envelope_witness :
  0 <= vx (mkVec3 0 0.25 0) <= 0.8 /\
  -1.05 <= vy (mkVec3 0 0.25 0) <= 1.05 /\ vz (mkVec3 0 0.25 0) = 0.
Proof. apply (heart_envelope 0 (mkVec3 0 0.25 0)). exact heartShape_0. Defined.

(** The heart is defined on the first half of the index range, up to a
    hundred-thousandth before the middle, and undefined on the second
    half, from a hundred-thousandth past the middle: there the sine handed
    to [pow] is negative. With 50000 particles, those up to number 24999
    have a position and those from 25001 on have none. *)
Theorem heart_domain (index : R) :
  (0 <= index <= 1 / 2 - 1 / 10 ^ 5 -> exists p, heartShape index = Some p) /\
  (1 / 2 + 1 / 10 ^ 5 <= index < 1 -> heartShape index = None).
Proof.
  pose proof PI_tight. unfold heartShape, heart_x. split; intros H1.
  - assert (0 <= sin (index * 6.283185307)) by (apply sin_ge_0; lra).
    rewrite pow_cube by assumption. cbn [option_map]. eauto.
  - assert (sin (index * 6.283185307) < 0) by (apply sin_lt_0; lra).
    rewrite pow_negative_base by assumption. reflexivity.
Qed.

(** A quarter of the way round the heart is defined, three quarters of
    the way round it is not. *)
Lemma heart_domain_witness :
  (exists p, heartShape (1 / 4) = Some p) /\ heartShape (3 / 4) = None.
Proof.
  split.
  - apply (proj1 (heart_domain (1 / 4))). lra.
  - apply (proj2 (heart_domain (3 / 4))). lra.
Defined.

(** A burst never leaves the ball of radius 12.5: where the firework has
    a position, its distance from the origin is [50 e (1 - e)] for the
    phase [e] of the particle, and at most 12.5. *)
Theorem firework_envelope (time particleIndex index : R) (p : vec3) :
  fireworkShape time particleIndex index = Some p ->
  vlength p = 50 * explosionTimeOf time index * (1 - explosionTimeOf time index) /\
  vlength p <= 12.5.
Proof.
  intros Hp. rewrite (fireworkShape_magnitude _ _ _ _ Hp).
  split; [reflexivity |].
  destruct (burst_profile _ (explosionTime_range time index)) as [_ [H _]]. lra.
Qed.

Lemma firework_envelope_witness :
  exists p, fireworkShape 1 1 (1 / IZR particleCount) = Some p /\ vlength p <= 12.5.
Proof.
  destruct (fireworkShape_particle1 1 (1 / IZR particleCount)) as [p Hp].
  exists p. split; [exact Hp |].
  apply (firework_envelope 1 1 (1 / IZR particleCount) p Hp).
Defined.

Lemma explosionTime_period (time index : R) :
  explosionTimeOf (time + 5) index = explosionTimeOf time index.
Proof.
  unfold explosionTimeOf, glsl_mod, floor.
  replace ((time + 5) * 0.2 + index * 0.01) with (time * 0.2 + index * 0.01 + IZR 1) by lra.
  replace ((time * 0.2 + index * 0.01 + IZR 1) / 1.0)
    with ((time * 0.2 + index * 0.01) / 1.0 + IZR 1) by lra.
  rewrite Zfloor_addz, plus_IZR. lra.
Qed.

(** The firework repeats every 5 units of shader time (500 frames), for
    every particle: same phase, same position, defined or not. *)
Theorem firework_repeats (time particleIndex index : R) :
  explosionTimeOf (time + 5) index = explosionTimeOf time index /\
  fireworkShape (time + 5) particleIndex index =
  fireworkShape time particleIndex index.
Proof.
  split; [apply explosionTime_period |].
  unfold fireworkShape. now rewrite explosionTime_period.
Qed.

(** The wave of the ring repeats every [4 pi] units of shader time. *)
Theorem saturn_wave_repeats (time index : R) :
  saturnShape (time + 4 * PI) index = saturnShape time index.
Proof.
  unfold saturnShape. do 2 f_equal.
  replace ((time + 4 * PI) * 0.5 + index * 100.0)
    with (time * 0.5 + index * 100.0 + 2 * INR 1 * PI) by (simpl; lra).
  apply sin_period.
Qed.

End Envelopes.

(* ================================================================== *)
(** ** The contents of the particle buffers *)
(* ================================================================== *)

Section BufferContents.
Import GLSL HandParticles.

Lemma store3 (a : JS.Float32Array) (i j c : nat) (v0 v1 v2 : R) :
  (c < 3)%nat ->
  JS.store (JS.store (JS.store a (i * 3 + 0)%nat v0) (i * 3 + 1)%nat v1) (i * 3 + 2)%nat v2
    (j * 3 + c)%nat =
  if Nat.eqb j i then nth c [v0; v1; v2] 0 else a (j * 3 + c)%nat.
Proof.
  intros Hc. unfold JS.store.
  destruct (Nat.eqb_spec j i) as [-> | Hji].
  - destruct c as [| [| [| c]]]; [| | | lia].
    + destruct (Nat.eqb_spec (i * 3 + 0)%nat (i * 3 + 2)%nat); [lia |].
      destruct (Nat.eqb_spec (i * 3 + 0)%nat (i * 3 + 1)%nat); [lia |].
      now rewrite Nat.eqb_refl.
    + destruct (Nat.eqb_spec (i * 3 + 1)%nat (i * 3 + 2)%nat); [lia |].
      now rewrite Nat.eqb_refl.
    + now rewrite Nat.eqb_refl.
  - destruct (Nat.eqb_spec (j * 3 + c)%nat (i * 3 + 2)%nat); [lia |].
    destruct (Nat.eqb_spec (j * 3 + c)%nat (i * 3 + 1)%nat); [lia |].
    destruct (Nat.eqb_spec (j * 3 + c)%nat (i * 3 + 0)%nat); [lia | reflexivity].
Qed.

Lemma createLoop_colors (random : nat -> R) (n : nat) :
  forall i b j c, (c < 3)%nat ->
    colors (createLoop random n i b) (j * 3 + c)%nat =
    if (Nat.leb i j && Nat.ltb j (i + n)%nat)%bool then nth c [0.2; 0.4; 1.0] 0
    else colors b (j * 3 + c)%nat.
Proof.
  induction n as [| n IH]; intros i b j c Hc; cbn [createLoop].
  - destruct (Nat.leb_spec i j), (Nat.ltb_spec j (i + 0)%nat); simpl; try reflexivity; lia.
  - rewrite IH by exact Hc. unfold createParticle; cbn [colors].
    rewrite store3 by exact Hc.
    destruct (Nat.eqb_spec j i) as [Hji | Hji];
      destruct (Nat.leb_spec (S i) j), (Nat.ltb_spec j (S i + n)),
               (Nat.leb_spec i j), (Nat.ltb_spec j (i + S n)); simpl;
        try reflexivity; lia.
Qed.

Lemma createLoop_positions (random : nat -> R) (n : nat) :
  forall i b j c, (c < 3)%nat ->
    positions (createLoop random n i b) (j * 3 + c)%nat =
    if (Nat.leb i j && Nat.ltb j (i + n)%nat)%bool then random (j * 3 + c)%nat * 10 - 5
    else positions b (j * 3 + c)%nat.
Proof.
  induction n as [| n IH]; intros i b j c Hc; cbn [createLoop].
  - destruct (Nat.leb_spec i j), (Nat.ltb_spec j (i + 0)%nat); simpl; try reflexivity; lia.
  - rewrite IH by exact Hc. unfold createParticle; cbn [positions].
    rewrite store3 by exact Hc.
    destruct (Nat.eqb_spec j i) as [Hji | Hji];
      destruct (Nat.leb_spec (S i) j), (Nat.ltb_spec j (S i + n)),
               (Nat.leb_spec i j), (Nat.ltb_spec j (i + S n)); simpl;
        try reflexivity; try lia.
    subst j.
    destruct c as [| [| [| c]]]; [reflexivity | reflexivity | reflexivity | lia].
Qed.

Lemma slot_split (k : nat) : exists j c, (c < 3)%nat /\ k = (j * 3 + c)%nat.
Proof.
  exists (k / 3)%nat, (k mod 3)%nat. split.
  - apply Nat.mod_upper_bound. lia.
  - rewrite (Nat.div_mod_eq k 3) at 1. lia.
Qed.

(** Every stored start position lies in [-5, 5] when [Math.random()]
    returns values in [0, 1); this holds for each of the [3 * 50000] slots
    of the buffer. *)
Theorem stored_positions_range (random : nat -> R) (k : nat) :
  (forall m, 0 <= random m < 1) ->
  (k < 3 * Z.to_nat particleCount)%nat ->
  -5 <= positions (createParticles random) k <= 5.
Proof.
  intros Hr _. destruct (slot_split k) as [j [c [Hc ->]]].
  unfold createParticles. generalize (Z.to_nat particleCount). intros n.
  rewrite createLoop_positions by exact Hc.
  destruct (Nat.leb 0 j && Nat.ltb j (0 + n))%bool.
  - specialize (Hr (j * 3 + c)%nat). lra.
  - cbn [positions]. unfold JS.new_array. lra.
Qed.

Lemma stored_positions_range_witness :
  -5 <= positions (createParticles (fun _ => 1 / 2)) 7%nat <= 5.
Proof.
  apply (stored_positions_range (fun _ => 1 / 2) 7%nat);
    [intros m; lra | unfold particleCount; lia].
Defined.

(** The start position of particle [i] is made of the draws number
    [3 i], [3 i + 1] and [3 i + 2] of the random stream, in that order. *)
Theorem stored_positions_draws (random : nat -> R) (i : nat) :
  (i < Z.to_nat particleCount)%nat ->
  fetch3 (positions (createParticles random)) i =
  mkVec3 (random (i * 3 + 0)%nat * 10 - 5) (random (i * 3 + 1)%nat * 10 - 5)
         (random (i * 3 + 2)%nat * 10 - 5).
Proof.
  intros Hi. unfold fetch3, createParticles. revert Hi.
  generalize (Z.to_nat particleCount). intros n Hi.
  rewrite !createLoop_positions by lia.
  destruct (Nat.leb_spec 0 i), (Nat.ltb_spec i (0 + n)); simpl; try reflexivity; lia.
Qed.

Lemma stored_positions_draws_witness :
  fetch3 (positions (createParticles INR)) 2%nat =
  mkVec3 (INR (2 * 3 + 0)%nat * 10 - 5) (INR (2 * 3 + 1)%nat * 10 - 5)
         (INR (2 * 3 + 2)%nat * 10 - 5).
Proof.
  apply (stored_positions_draws INR 2%nat). unfold particleCount. lia.
Defined.

(** Particle [i] carries its own number as index attribute, and its
    normalised index lies in [0, 1 - 1/50000]: index 1 is never reached. *)
Theorem stored_index_normalised (random : nat -> R) (i : nat) :
  (i < Z.to_nat particleCount)%nat ->
  particleIndices (createParticles random) i = INR i /\
  0 <= particleIndices (createParticles random) i / IZR particleCount
    <= 1 - 1 / IZR particleCount.
Proof.
  intros Hi. rewrite createParticles_index by exact Hi.
  split; [reflexivity |].
  assert (HN : IZR particleCount = 50000) by (unfold particleCount; lra).
  assert (Hle : INR i <= 49999).
  { replace 49999 with (IZR 49999) by lra. rewrite INR_IZR_INZ.
    apply IZR_le. unfold particleCount in Hi. lia. }
  pose proof (pos_INR i). rewrite HN. lra.
Qed.

Lemma stored_index_normalised_witness :
  particleIndices (createParticles (fun _ => 0)) 3%nat = INR 3 /\
  0 <= particleIndices (createParticles (fun _ => 0)) 3%nat / IZR particleCount
    <= 1 - 1 / IZR particleCount.
Proof.
  apply (stored_index_normalised (fun _ => 0) 3%nat). unfold particleCount. lia.
Defined.

Lemma createParticles_tint (random : nat -> R) (i : nat) :
  (i < Z.to_nat particleCount)%nat ->
  fetch3 (colors (createParticles random)) i = mkVec3 0.2 0.4 1.0.
Proof.
  unfold fetch3, createParticles. generalize (Z.to_nat particleCount). intros n Hi.
  rewrite !createLoop_colors by lia.
  destruct (Nat.leb_spec 0 i), (Nat.ltb_spec i (0 + n)); simpl; try reflexivity; lia.
Qed.

(** Every particle is stored with the tint (0.2, 0.4, 1.0), and every
    vertex that the shader produces for it carries that tint, whatever the
    uniforms and matrices. *)
Theorem rendered_tint (time tid e : R) (mv proj : mat4) (random : nat -> R)
    (i : nat) (out : particleVertexShader.VertexOut) :
  (i < Z.to_nat particleCount)%nat ->
  renderVertex time tid e mv proj (createParticles random) i = Some out ->
  fetch3 (colors (createParticles random)) i = mkVec3 0.2 0.4 1.0 /\
  particleVertexShader.vColor out = mkVec3 0.2 0.4 1.0.
Proof.
  intros Hi Hout. pose proof (createParticles_tint random i Hi) as Ht.
  split; [exact Ht |].
  unfold renderVertex in Hout.
  remember (createParticles random) as b eqn:Hb. clear Hb.
  remember (fetch3 (colors b) i) as col eqn:Hcol. clear Hcol. subst col.
  unfold particleVertexShader.main in Hout.
  destruct (particleVertexShader.finalPosition _ _ _ _ _); [| discriminate].
  destruct (fdiv _ _); [| discriminate].
  injection Hout as <-. reflexivity.
Qed.

End BufferContents.

(* ================================================================== *)
(** ** The rendered vertex *)
(* ================================================================== *)

Section RenderedVertex.
Import GLSL HandParticles HandParticles.particleVertexShader.

Lemma vlength_zero_components (v : vec3) :
  vlength v = 0 -> vx v = 0 /\ vy v = 0 /\ vz v = 0.
Proof.
  unfold vlength. intros H.
  apply sqrt_eq_0 in H; [| apply dot_self_nonneg].
  unfold dot in H.
  assert (Hx : vx v * vx v = 0) by nra.
  assert (Hy : vy v * vy v = 0) by nra.
  assert (Hz : vz v * vz v = 0) by nra.
  apply Rmult_integral in Hx, Hy, Hz. tauto.
Qed.

Lemma vlength_ge (v : vec3) (b : R) :
  0 <= b -> b * b <= dot v v -> b <= vlength v.
Proof.
  intros Hb Hd. unfold vlength.
  rewrite <- (sqrt_square b) by exact Hb.
  now apply sqrt_le_1_alt.
Qed.

(** The three static templates stay within 2.51 of the origin and within
    0.75 of the plane. *)
Lemma static_shape_bounds (time tid idx : R) (pos q : vec3) :
  tid < 2.5 -> templateSwitch time tid idx pos = Some q ->
  dot q q <= 6.3001 /\ -0.75 <= vz q <= 0.75.
Proof.
  intros Htid. unfold templateSwitch.
  destruct (Rlt_dec tid 0.5); [| destruct (Rlt_dec tid 1.5);
    [| destruct (Rlt_dec tid 2.5); [| lra]]]; intros E.
  - destruct (heartShape_box _ _ E) as [Hx [Hy Hz]]. unfold dot. split; nra.
  - injection E as <-.
    pose proof (flowerShape_annulus (idx / IZR particleCount)) as [Hxy Hz].
    cbv zeta in Hxy, Hz. unfold dot. split; nra.
  - injection E as <-.
    pose proof (saturnShape_ring time (idx / IZR particleCount)) as [Hxy Hz].
    cbv zeta in Hxy, Hz. unfold dot. split; nra.
Qed.

Lemma shape_within_burst (time tid idx : R) (pos q : vec3) :
  templateSwitch time tid idx pos = Some q -> vlength q <= 12.5.
Proof.
  intros E. destruct (Rlt_dec tid 2.5) as [Ht | Ht].
  - destruct (static_shape_bounds _ _ _ _ _ Ht E) as [Hd _].
    apply vlength_le; lra.
  - rewrite templateSwitch_firework in E by lra.
    rewrite (fireworkShape_magnitude _ _ _ _ E).
    destruct (burst_profile _ (explosionTime_range time (idx / IZR particleCount)))
      as [_ [H _]]. lra.
Qed.

(** For an expansion within [0, 1] no particle is further than 50 from
    the origin, and under the heart, the flower and the ring none is
    further than 10.04. *)
Theorem final_position_bounded (time tid e idx : R) (pos p : vec3) :
  0 <= e <= 1 ->
  finalPosition time tid e idx pos = Some p ->
  vlength p <= 50 /\ (tid < 2.5 -> vlength p <= 10.04).
Proof.
  intros He. rewrite finalPosition_scale.
  destruct (templateSwitch time tid idx pos) as [q |] eqn:Eq; [| discriminate].
  cbn [option_map]. intros E. injection E as <-.
  rewrite vlength_vscale, Rabs_pos_eq by lra.
  pose proof (vlength_nonneg q). pose proof (shape_within_burst _ _ _ _ _ Eq).
  split; [nra |]. intros Ht.
  destruct (static_shape_bounds _ _ _ _ _ Ht Eq) as [Hd _].
  assert (vlength q <= 2.51) by (apply vlength_le; lra). nra.
Qed.

Lemma final_position_bounded_witness :
  vlength (vscale (mkVec3 0 0.25 0) (1 + 1 * 3)) <= 50 /\
  (0 < 2.5 -> vlength (vscale (mkVec3 0 0.25 0) (1 + 1 * 3)) <= 10.04).
Proof.
  apply (final_position_bounded 0 0 1 0 (splat3 0)); [lra |].
  apply finalPosition_heart_0.
Defined.

(** The vertex is undefined exactly when the shape position is, or when
    the particle sits at the eye point, where the point size divides by a
    zero distance. *)
Theorem vertex_undefined_iff (time tid e : R) (mv proj : mat4) (idx : R)
    (col pos : vec3) :
  main time tid e mv proj idx col pos = None <->
  finalPosition time tid e idx pos = None \/
  exists p, finalPosition time tid e idx pos = Some p /\
            xyz (mat_mul mv (vec4_of p 1.0)) = mkVec3 0 0 0.
Proof.
  unfold main.
  destruct (finalPosition time tid e idx pos) as [p |]; [| tauto].
  unfold fdiv.
  destruct (Req_dec_T (vlength (xyz (mat_mul mv (vec4_of p 1.0)))) 0) as [H0 | H0].
  - split; [intros _ | reflexivity]. right. exists p. split; [reflexivity |].
    destruct (vlength_zero_components _ H0) as [Hx [Hy Hz]].
    destruct (xyz (mat_mul mv (vec4_of p 1.0))) as [x y z]. cbn in Hx, Hy, Hz.
    now subst.
  - split; [discriminate |]. intros [H | [p' [Hp Hz]]]; [discriminate |].
    injection Hp as <-. rewrite Hz, vlength_zero in H0. contradiction.
Qed.

(** A defined vertex has its colour attribute as colour, the expanded
    position under both matrices as clip position, and the point size
    [(10 - 5 e) * 200 / distance to the eye]: positive exactly while the
    expansion is below 2. *)
Theorem vertex_point_size (time tid e : R) (mv proj : mat4) (idx : R)
    (col pos : vec3) (out : VertexOut) :
  main time tid e mv proj idx col pos = Some out ->
  exists p, finalPosition time tid e idx pos = Some p /\
    let d := vlength (xyz (mat_mul mv (vec4_of p 1.0))) in
    0 < d /\
    vColor out = col /\
    gl_Position out = mat_mul proj (mat_mul mv (vec4_of p 1.0)) /\
    gl_PointSize out = (10 - 5 * e) * 200 / d /\
    (0 < gl_PointSize out <-> e < 2).
Proof.
  unfold main.
  destruct (finalPosition time tid e idx pos) as [p |]; [| discriminate].
  unfold fdiv.
  destruct (Req_dec_T (vlength (xyz (mat_mul mv (vec4_of p 1.0)))) 0) as [H0 | H0];
    [discriminate |].
  intros E. injection E as <-. exists p. split; [reflexivity |].
  cbv zeta. cbn [vColor gl_Position gl_PointSize].
  set (d := vlength (xyz (mat_mul mv (vec4_of p 1.0)))) in *.
  assert (Hd : 0 < d) by (pose proof (vlength_nonneg (xyz (mat_mul mv (vec4_of p 1.0)))); fold d in H; lra).
  assert (Hq : 0 < 200 / d) by (apply Rdiv_lt_0_compat; lra).
  split; [exact Hd |]. split; [reflexivity |]. split; [reflexivity |].
  assert (Hs : (10.0 - e * 5.0) * (200.0 / d) = (10 - 5 * e) * 200 / d).
  { replace 10.0 with 10 by lra. replace 5.0 with 5 by lra.
    replace 200.0 with 200 by lra. unfold Rdiv. ring. }
  split; [exact Hs |]. rewrite Hs.
  replace ((10 - 5 * e) * 200 / d) with ((10 - 5 * e) * (200 / d))
    by (unfold Rdiv; ring).
  split; intros H; nra.
Qed.

(** The view position of a point seen by the camera of [init()]. *)
Lemma modelView_apply (p : vec3) :
  xyz (mat_mul modelView (vec4_of p 1.0)) = mkVec3 (vx p) (vy p) (vz p - 10) /\
  mat_mul modelView (vec4_of p 1.0) = mkVec4 (vx p) (vy p) (vz p - 10) 1.
Proof.
  unfold modelView, THREE.viewFrom, cameraZ, mat_mul, vadd4, vscale4, vec4_of, xyz.
  cbn. split; f_equal; lra.
Qed.

(** Under the heart, the flower and the ring, with an expansion within
    [0, 1] and the camera where [init()] puts it, every particle with a
    shape position is in front of the camera at a depth of at least 7:
    its vertex is defined and its point size lies between 50 and 286. *)
Theorem static_templates_in_view (time tid e : R) (proj : mat4) (idx : R)
    (col pos p : vec3) :
  tid < 2.5 -> 0 <= e <= 1 ->
  finalPosition time tid e idx pos = Some p ->
  vz p - 10 <= -7 /\
  exists out, main time tid e modelView proj idx col pos = Some out /\
              vColor out = col /\
              50 <= gl_PointSize out <= 286.
Proof.
  intros Ht He Hp.
  assert (Hb : dot p p <= 100.8016 /\ -3 <= vz p <= 3).
  { rewrite finalPosition_scale in Hp.
    destruct (templateSwitch time tid idx pos) as [q |] eqn:Eq; [| discriminate].
    cbn [option_map] in Hp. injection Hp as <-.
    destruct (static_shape_bounds _ _ _ _ _ Ht Eq) as [Hd Hz].
    pose proof (dot_self_nonneg q).
    replace (dot (vscale q (1 + e * 3)) (vscale q (1 + e * 3)))
      with (dot q q * ((1 + e * 3) * (1 + e * 3)))
      by (unfold dot, vscale; simpl; ring).
    unfold vscale; cbn [vz].
    assert (1 <= (1 + e * 3) * (1 + e * 3) <= 16) by nra.
    split; nra. }
  destruct Hb as [Hd Hz]. split; [lra |].
  destruct (modelView_apply p) as [Hxyz Hmv].
  unfold main. rewrite Hp, Hxyz. unfold fdiv.
  set (v := mkVec3 (vx p) (vy p) (vz p - 10)).
  assert (Hdv : 49 <= dot v v <= 400).
  { unfold dot in Hd |- *. subst v; cbn [vx vy vz]. split; nra. }
  assert (Hlo : 7 <= vlength v) by (apply vlength_ge; lra).
  assert (Hhi : vlength v <= 20) by (apply vlength_le; lra).
  destruct (Req_dec_T (vlength v) 0) as [H0 | H0]; [lra |].
  eexists. split; [reflexivity |]. cbn [vColor gl_PointSize].
  split; [reflexivity |].
  assert (Hq : 10 <= 200.0 / vlength v <= 200 / 7).
  { split.
    - apply Rmult_le_reg_r with (vlength v); [lra |].
      unfold Rdiv. rewrite Rmult_assoc, Rinv_l by lra. lra.
    - unfold Rdiv. replace 200.0 with 200 by lra.
      apply Rmult_le_compat_l; [lra |]. apply Rinv_le_contravar; lra. }
  split; nra.
Qed.

Lemma static_templates_in_view_witness :
  vz (vscale (mkVec3 0 0.25 0) (1 + 0 * 3)) - 10 <= -7 /\
  exists out,
    main 0 0 0 modelView modelView 0 (mkVec3 0.2 0.4 1.0) (splat3 0) = Some out /\
    vColor out = mkVec3 0.2 0.4 1.0 /\
    50 <= gl_PointSize out <= 286.
Proof.
  apply (static_templates_in_view 0 0 0 modelView 0 (mkVec3 0.2 0.4 1.0) (splat3 0));
    [lra | lra | apply finalPosition_heart_0].
Defined.

(** The first particle of the heart, seen by the camera of [init()], has
    a defined vertex. *)
Lemma heart_top_vertex (time e : R) (proj : mat4) (col pos : vec3) :
  exists out, main time 0 e modelView proj 0 col pos = Some out.
Proof.
  unfold main. rewrite finalPosition_heart_0.
  destruct (modelView_apply (vscale (mkVec3 0 0.25 0) (1 + e * 3))) as [Hxyz _].
  rewrite Hxyz. unfold fdiv.
  destruct (Req_dec_T _ 0) as [H0 | H0]; [| eauto].
  apply vlength_zero_components in H0. cbn [vx vy vz vscale] in H0. lra.
Qed.

Lemma vertex_point_size_witness :
  exists out,
    main 0 0 0 modelView modelView 0 (mkVec3 0.2 0.4 1.0) (splat3 0) = Some out /\
    (0 < gl_PointSize out <-> 0 < 2).
Proof.
  destruct (heart_top_vertex 0 0 modelView (mkVec3 0.2 0.4 1.0) (splat3 0))
    as [out Hout].
  exists out. split; [exact Hout |].
  destruct (vertex_point_size _ _ _ _ _ _ _ _ _ Hout) as [p [_ H]].
  cbv zeta in H. tauto.
Defined.

Lemma rendered_tint_witness :
  exists out,
    renderVertex 0 0 0 modelView modelView (createParticles (fun _ => 0)) 0%nat =
      Some out /\
    vColor out = mkVec3 0.2 0.4 1.0.
Proof.
  assert (Hidx : particleIndices (createParticles (fun _ => 0)) 0%nat = 0).
  { rewrite createParticles_index by apply particleCount_pos. reflexivity. }
  destruct (heart_top_vertex 0 0 modelView
              (fetch3 (colors (createParticles (fun _ => 0))) 0%nat)
              (fetch3 (positions (createParticles (fun _ => 0))) 0%nat))
    as [out Hout].
  assert (Hr : renderVertex 0 0 0 modelView modelView
                 (createParticles (fun _ => 0)) 0%nat = Some out).
  { unfold renderVertex. rewrite Hidx. exact Hout. }
  exists out. split; [exact Hr |].
  exact (proj2 (rendered_tint 0 0 0 modelView modelView (fun _ => 0) 0%nat out
                  particleCount_pos Hr)).
Defined.

End RenderedVertex.

(* ================================================================== *)
(** ** The fragment alpha *)
(* ================================================================== *)

Section FragmentAlpha.
Import GLSL HandParticles HandParticles.particleFragmentShader.

(** The distance of a fragment from the centre of its sprite. *)
Lemma alpha_of_distance (time tid : R) (vColor : vec3) (coord : vec2) :
  ww (main time tid vColor coord) =
  1.0 - smoothstep 0.4 0.5 (vlength2 (vsub2 coord (splat2 0.5))).
Proof. unfold main. now destruct (Req_dec_T tid 3.0). Qed.

Lemma clamp_unit (x : R) :
  0 <= clamp x 0 1 <= 1 /\
  (x <= 0 -> clamp x 0 1 = 0) /\ (1 <= x -> clamp x 0 1 = 1) /\
  (0 <= x <= 1 -> clamp x 0 1 = x).
Proof.
  unfold clamp, Rmin, Rmax.
  destruct (Rle_dec x 0); destruct (Rle_dec _ 1); repeat split; intros; lra.
Qed.

Lemma clamp_monotone (x y : R) : x <= y -> clamp x 0 1 <= clamp y 0 1.
Proof.
  intros H. unfold clamp.
  apply Rle_min_compat_r. now apply Rle_max_compat_r.
Qed.

Lemma hermite_monotone (s t : R) :
  0 <= s -> s <= t -> t <= 1 -> s * s * (3 - 2 * s) <= t * t * (3 - 2 * t).
Proof.
  intros H0 Hst H1.
  assert (0 <= (t - s) * (3 * (s + t) - 2 * (s * s + s * t + t * t))).
  { apply Rmult_le_pos; [lra |]. nra. }
  nra.
Qed.

(** The opacity of a fragment lies in [0, 1]; it is 1 within 0.4 of the
    centre of the sprite and 0 from 0.5 on, so the corners of the square
    sprite are never drawn. *)
Theorem alpha_profile (time tid : R) (vColor : vec3) (coord : vec2) :
  let r := vlength2 (vsub2 coord (splat2 0.5)) in
  let a := ww (main time tid vColor coord) in
  0 <= a <= 1 /\ (r <= 0.4 -> a = 1) /\ (0.5 <= r -> a = 0).
Proof.
  cbv zeta. rewrite alpha_of_distance.
  set (r := vlength2 (vsub2 coord (splat2 0.5))).
  unfold smoothstep.
  set (x := (r - 0.4) / (0.5 - 0.4)).
  assert (Hx : x = 10 * (r - 0.4)) by (subst x; lra).
  destruct (clamp_unit x) as [Hc [Hlo [Hhi Hmid]]].
  set (t := clamp x 0 1) in *.
  assert (Hh : 0 <= t * t * (3 - 2 * t) <= 1).
  { pose proof (hermite_monotone 0 t ltac:(lra) ltac:(lra) ltac:(lra)).
    pose proof (hermite_monotone t 1 ltac:(lra) ltac:(lra) ltac:(lra)). lra. }
  split; [lra |]. split; intros H.
  - rewrite Hlo by lra. lra.
  - rewrite Hhi by lra. lra.
Qed.

(** The opacity does not increase with the distance from the centre. *)
Theorem alpha_fades (time tid : R) (vColor : vec3) (coord1 coord2 : vec2) :
  vlength2 (vsub2 coord1 (splat2 0.5)) <= vlength2 (vsub2 coord2 (splat2 0.5)) ->
  ww (main time tid vColor coord2) <= ww (main time tid vColor coord1).
Proof.
  intros Hr. rewrite !alpha_of_distance. unfold smoothstep.
  set (r1 := vlength2 (vsub2 coord1 (splat2 0.5))) in *.
  set (r2 := vlength2 (vsub2 coord2 (splat2 0.5))) in *.
  assert (Hx : (r1 - 0.4) / (0.5 - 0.4) <= (r2 - 0.4) / (0.5 - 0.4)) by lra.
  pose proof (clamp_monotone _ _ Hx) as Hc.
  destruct (clamp_unit ((r1 - 0.4) / (0.5 - 0.4))) as [H1 _].
  destruct (clamp_unit ((r2 - 0.4) / (0.5 - 0.4))) as [H2 _].
  pose proof (hermite_monotone _ _ (proj1 H1) Hc (proj2 H2)). lra.
Qed.

Lemma vlength2_centre : vlength2 (vsub2 (mkVec2 0.5 0.5) (splat2 0.5)) = 0.
Proof.
  unfold vlength2, vsub2, splat2; cbn [px py].
  replace ((0.5 - 0.5) * (0.5 - 0.5) + (0.5 - 0.5) * (0.5 - 0.5)) with 0 by lra.
  apply sqrt_0.
Qed.

(** The centre of the sprite is opaque and its corner is not drawn. *)
Lemma alpha_profile_witness :
  ww (main 0 0 (mkVec3 0.2 0.4 1.0) (mkVec2 0.5 0.5)) = 1 /\
  ww (main 0 0 (mkVec3 0.2 0.4 1.0) (mkVec2 1 1)) = 0.
Proof.
  split.
  - apply (proj1 (proj2
      (alpha_profile 0 0 (mkVec3 0.2 0.4 1.0) (mkVec2 0.5 0.5)))).
    rewrite vlength2_centre. lra.
  - apply (proj2 (proj2
      (alpha_profile 0 0 (mkVec3 0.2 0.4 1.0) (mkVec2 1 1)))).
    unfold vlength2, vsub2, splat2; cbn [px py].
    rewrite <- (sqrt_square 0.5) at 1 by lra.
    apply sqrt_le_1_alt. lra.
Defined.

(** The centre of the sprite against any other fragment. *)
Lemma alpha_fades_witness :
  ww (main 0 0 (mkVec3 0.2 0.4 1.0) (mkVec2 1 1)) <=
  ww (main 0 0 (mkVec3 0.2 0.4 1.0) (mkVec2 0.5 0.5)).
Proof.
  apply (alpha_fades 0 0 (mkVec3 0.2 0.4 1.0) (mkVec2 0.5 0.5) (mkVec2 1 1)).
  rewrite vlength2_centre. apply sqrt_pos.
Defined.

End FragmentAlpha.

(* ================================================================== *)
(** ** The animation loop *)
(* ================================================================== *)

Section AnimationLoop.
Import HandParticles.

(** The shader clock counts frames, not seconds: after a run it has
    advanced by a hundredth per frame, whatever the wall clock read, and
    so it never decreases. *)
Theorem shader_time_counts_frames (clock : list (Z * Z * Z)) (s : Script) :
  u_time (frames clock s) = u_time s + 0.01 * INR (length clock) /\
  u_time s <= u_time (frames clock s).
Proof.
  assert (H : forall c s', u_time (frames c s') = u_time s' + 0.01 * INR (length c)).
  { induction c as [| [[n1 n2] n3] c IH]; intros s'.
    - cbn. lra.
    - cbn [frames length]. rewrite IH, S_INR.
      unfold animate; cbn [u_time].
      replace (u_time (getGestureData n1 n2 n3 s')) with (u_time s')
        by (unfold getGestureData; now destruct (Z.ltb _ _)).
      lra. }
  split; [apply H |]. rewrite H. pose proof (pos_INR (length clock)). lra.
Qed.

Lemma frames_hold (clock : list (Z * Z * Z)) (s : Script) :
  Forall (fun c => (snd (fst c) - lastSwitchTime s <= 6000)%Z) clock ->
  templateID (frames clock s) = templateID s /\
  lastSwitchTime (frames clock s) = lastSwitchTime s.
Proof.
  revert s. induction clock as [| [[n1 n2] n3] clock IH]; intros s Hall.
  - now split.
  - inversion Hall as [| c l Hc Hl]; subst. cbn [fst snd] in Hc.
    cbn [frames].
    assert (Hstep : templateID (animate n1 n2 n3 s) = templateID s /\
                    lastSwitchTime (animate n1 n2 n3 s) = lastSwitchTime s).
    { unfold animate, getGestureData.
      destruct (Z.ltb_spec 6000 (n2 - lastSwitchTime s)); [lia |]. now split. }
    destruct Hstep as [Ht Hl'].
    destruct (IH (animate n1 n2 n3 s)) as [IHt IHl].
    + rewrite Hl'. exact Hl.
    + split; congruence.
Qed.

(** The template is held while the clock stays within six seconds of the
    last switch: a run of frames whose second clock readings are all at
    most 6000 ms past it changes neither the template nor the time of the
    last switch. *)
Theorem template_held_six_seconds (clock : list (Z * Z * Z)) (s : Script) :
  Forall (fun c => (snd (fst c) - lastSwitchTime s <= 6000)%Z) clock ->
  templateID (frames clock s) = templateID s /\
  lastSwitchTime (frames clock s) = lastSwitchTime s.
Proof.
  revert s. induction clock as [| [[n1 n2] n3] clock IH]; intros s Hall.
  - now split.
  - inversion Hall as [| c l Hc Hl]; subst. cbn [fst snd] in Hc.
    cbn [frames].
    assert (Hstep : templateID (animate n1 n2 n3 s) = templateID s /\
                    lastSwitchTime (animate n1 n2 n3 s) = lastSwitchTime s).
    { unfold animate, getGestureData.
      destruct (Z.ltb_spec 6000 (n2 - lastSwitchTime s)); [lia |]. now split. }
    destruct Hstep as [Ht Hl'].
    destruct (IH (animate n1 n2 n3 s)) as [IHt IHl].
    + rewrite Hl'. exact Hl.
    + split; congruence.
Qed.

Lemma template_held_six_seconds_witness :
  templateID (frames [(1000, 1016, 1016); (3000, 7000, 7000)]%Z (initial 1000)) =
    templateID (initial 1000) /\
  lastSwitchTime (frames [(1000, 1016, 1016); (3000, 7000, 7000)]%Z (initial 1000)) =
    lastSwitchTime (initial 1000).
Proof.
  apply (template_held_six_seconds
           [(1000, 1016, 1016); (3000, 7000, 7000)]%Z (initial 1000)).
  repeat constructor; cbn; lia.
Defined.

(** A frame whose second clock reading is more than six seconds past the
    last switch moves the template to its successor modulo 4 and restarts
    the six seconds from the frame's third reading; until the clock has
    passed that reading by more than 6000 ms no further switch happens. *)
Theorem switch_then_hold (now1 now2 now3 : Z) (clock : list (Z * Z * Z))
    (s : Script) :
  (0 <= templateID s < 4)%Z ->
  (6000 < now2 - lastSwitchTime s)%Z ->
  Forall (fun c => (snd (fst c) - now3 <= 6000)%Z) clock ->
  templateID (frames ((now1, now2, now3) :: clock) s) =
    ((templateID s + 1) mod 4)%Z /\
  lastSwitchTime (frames ((now1, now2, now3) :: clock) s) = now3.
Proof.
  intros Hr Hgt Hall. cbn [frames].
  assert (Hstep : templateID (animate now1 now2 now3 s) = ((templateID s + 1) mod 4)%Z /\
                  lastSwitchTime (animate now1 now2 now3 s) = now3).
  { unfold animate, getGestureData.
    destruct (Z.ltb_spec 6000 (now2 - lastSwitchTime s)); [| lia].
    cbn [templateID lastSwitchTime]. split; [now apply nextTemplate_mod | reflexivity]. }
  destruct Hstep as [Ht Hl].
  destruct (frames_hold clock (animate now1 now2 now3 s)) as [Hht Hhl];
    [rewrite Hl; exact Hall |].
  split; congruence.
Qed.

Lemma switch_then_hold_witness :
  templateID (frames [(7000, 7001, 7002); (9000, 9001, 9001)]%Z (initial 0)) =
    ((templateID (initial 0) + 1) mod 4)%Z /\
  lastSwitchTime (frames [(7000, 7001, 7002); (9000, 9001, 9001)]%Z (initial 0)) =
    7002%Z.
Proof.
  apply (switch_then_hold 7000 7001 7002 [(9000, 9001, 9001)]%Z (initial 0));
    [cbn; lia | cbn; lia | repeat constructor; cbn; lia].
Defined.

End AnimationLoop.

(* ================================================================== *)
(** ** The reduced script *)
(* ================================================================== *)

Section ReducedScript.
Import GLSL MainJs MainJs.vShader.

Lemma fillIndices_spec (n : nat) :
  forall i a k,
    fillIndices n i a k =
    if (Nat.leb i k && Nat.ltb k (i + n))%bool then INR k else a k.
Proof.
  induction n as [| n IH]; intros i a k; cbn [fillIndices].
  - destruct (Nat.leb_spec i k), (Nat.ltb_spec k (i + 0)); simpl; try reflexivity; lia.
  - rewrite IH. unfold JS.store.
    destruct (Nat.eqb_spec k i) as [Hki | Hki];
      destruct (Nat.leb_spec (S i) k), (Nat.ltb_spec k (S i + n)),
               (Nat.leb_spec i k), (Nat.ltb_spec k (i + S n)); simpl;
        try reflexivity; try lia.
    now subst k.
Qed.

(** The index buffer of the reduced script holds [i] at slot [i], so the
    normalised index of every particle lies in [0, 1 - 1/20000]; its
    position buffer is never written and stays zero. *)
Theorem js_buffers_content (i : nat) :
  (i < Z.to_nat MainJs.particleCount)%nat ->
  indices buffers i = INR i /\
  0 <= indices buffers i / IZR MainJs.particleCount
    <= 1 - 1 / IZR MainJs.particleCount /\
  (forall k, (k < 3 * Z.to_nat MainJs.particleCount)%nat -> positions buffers k = 0).
Proof.
  intros Hi.
  assert (Hidx : indices buffers i = INR i).
  { unfold buffers; cbn [indices]. revert Hi.
    generalize (Z.to_nat MainJs.particleCount). intros n Hi.
    rewrite fillIndices_spec.
    destruct (Nat.leb_spec 0 i), (Nat.ltb_spec i (0 + n)); simpl; try reflexivity; lia. }
  rewrite Hidx. split; [reflexivity |]. split; [| intros k _; reflexivity].
  assert (HN : IZR MainJs.particleCount = 20000) by (unfold MainJs.particleCount; lra).
  assert (Hle : INR i <= 19999).
  { replace 19999 with (IZR 19999) by lra. rewrite INR_IZR_INZ.
    apply IZR_le. unfold MainJs.particleCount in Hi. lia. }
  pose proof (pos_INR i). rewrite HN. lra.
Qed.

Lemma js_buffers_content_witness :
  indices buffers 5%nat = INR 5 /\
  0 <= indices buffers 5%nat / IZR MainJs.particleCount
    <= 1 - 1 / IZR MainJs.particleCount /\
  (forall k, (k < 3 * Z.to_nat MainJs.particleCount)%nat -> positions buffers k = 0).
Proof.
  apply (js_buffers_content 5%nat). unfold MainJs.particleCount. lia.
Defined.

(** A defined vertex of the reduced script has a colour whose channels
    all lie in [0, 1] (red follows a sine of time and position, green is
    0.7, blue is 1), and the point size [400 / -z] for its view depth
    [z], which is not zero; the size is positive exactly for a point in
    front of the camera, [z < 0], and negative behind it. *)
Theorem js_vertex_outputs (uTime id e : R) (mv proj : mat4) (aIndex : R)
    (out : VertexOut) :
  main uTime id e mv proj aIndex = Some out ->
  exists p, targetPos id e aIndex = Some p /\
    let z := wz (mat_mul mv (vec4_of p 1.0)) in
    z <> 0 /\
    gl_PointSize out = 400 / - z /\
    (0 < gl_PointSize out <-> z < 0) /\
    vColor out = mkVec3 (0.5 + 0.5 * sin (uTime + vx p)) 0.7 1.0 /\
    0 <= vx (vColor out) <= 1 /\
    gl_Position out = mat_mul proj (mat_mul mv (vec4_of p 1.0)).
Proof.
  unfold main.
  destruct (targetPos id e aIndex) as [p |]; [| discriminate].
  unfold fdiv.
  set (z := wz (mat_mul mv (vec4_of p 1.0))).
  destruct (Req_dec_T (- z) 0) as [H0 | H0]; [discriminate |].
  intros E. injection E as <-. exists p. split; [reflexivity |].
  cbv zeta. fold z. cbn [gl_PointSize vColor gl_Position vx].
  assert (Hz : z <> 0) by lra.
  assert (Hs : 4.0 * (100.0 / - z) = 400 / - z).
  { replace 4.0 with 4 by lra. replace 100.0 with 100 by lra.
    unfold Rdiv. ring. }
  split; [exact Hz |]. split; [exact Hs |]. rewrite Hs.
  split.
  - split; intros H.
    + destruct (Rlt_dec z 0) as [Hn | Hn]; [exact Hn | exfalso].
      assert (0 < z) by lra.
      assert (0 < / z) by now apply Rinv_0_lt_compat.
      unfold Rdiv in H. rewrite Rinv_opp in H. nra.
    + apply Rdiv_lt_0_compat; lra.
  - split; [reflexivity |]. split; [| reflexivity].
    pose proof (SIN_bound (uTime + vx p)). lra.
Qed.

Lemma js_modelView_depth (p : vec3) :
  wz (mat_mul MainJs.modelView (vec4_of p 1.0)) = vz p - 15.
Proof.
  unfold MainJs.modelView, THREE.viewFrom, MainJs.cameraZ, mat_mul, vadd4,
    vscale4, vec4_of.
  cbn. lra.
Qed.

Lemma js_main_defined (uTime id e : R) (proj : mat4) (aIndex : R) (p : vec3) :
  targetPos id e aIndex = Some p -> vz p <> 15 ->
  exists out, main uTime id e MainJs.modelView proj aIndex = Some out /\
              gl_PointSize out = 400 / (15 - vz p).
Proof.
  intros Hp Hz. unfold main. rewrite Hp, js_modelView_depth. unfold fdiv.
  destruct (Req_dec_T (- (vz p - 15)) 0) as [H0 | H0]; [lra |].
  eexists. split; [reflexivity |]. cbn [gl_PointSize].
  replace 4.0 with 4 by lra. replace 100.0 with 100 by lra.
  replace (- (vz p - 15)) with (15 - vz p) by lra.
  unfold Rdiv. ring.
Qed.

(** Under the heart and the flower of the reduced script, with an
    expansion within [0, 1] and the camera at [z = 15], every particle
    with a shape position is at a view depth between 12 and 18: its
    vertex is defined and its point size lies between 400/18 and
    400/12. *)
Theorem js_static_templates_in_view (uTime id e : R) (proj : mat4)
    (aIndex : R) (p : vec3) :
  id < 1.5 -> 0 <= e <= 1 ->
  targetPos id e aIndex = Some p ->
  -3 <= vz p <= 3 /\
  exists out, main uTime id e MainJs.modelView proj aIndex = Some out /\
              400 / 18 <= gl_PointSize out <= 400 / 12.
Proof.
  intros Hid He Hp.
  assert (Hz : -3 <= vz p <= 3).
  { rewrite targetPos_scale in Hp. unfold getShape in Hp.
    destruct (Rlt_dec id 0.5).
    - destruct (pow _ _); [| discriminate]. cbn [option_map] in Hp.
      injection Hp as <-. unfold vscale; cbn [vz]. nra.
    - destruct (Rlt_dec id 1.5); [| lra]. cbn [option_map] in Hp.
      injection Hp as <-. unfold vscale; cbn [vz].
      pose proof (SIN_bound (aIndex / IZR MainJs.particleCount * 10.0)). nra. }
  split; [exact Hz |].
  destruct (js_main_defined uTime id e proj aIndex p Hp ltac:(lra)) as [out [Hout Hs]].
  exists out. split; [exact Hout |]. rewrite Hs.
  assert (H12 : / 18 <= / (15 - vz p) <= / 12).
  { split; apply Rinv_le_contravar; lra. }
  unfold Rdiv. split; nra.
Qed.

Lemma getShape_ring (id i : R) :
  1.5 <= id ->
  getShape id i =
  Some (mkVec3 (8.0 * cos (i * 6.28318)) (8.0 * sin (i * 6.28318) * 0.3)
               (8.0 * sin (i * 6.28318))).
Proof.
  intros H. unfold getShape.
  destruct (Rlt_dec id 0.5); [lra |]. destruct (Rlt_dec id 1.5); [lra | reflexivity].
Qed.

Lemma js_static_templates_in_view_witness :
  -3 <= vz (vscale (mkVec3 5 0 0) (1 + 0 * 2)) <= 3 /\
  exists out, main 0 1 0 MainJs.modelView MainJs.modelView 0 = Some out /\
              400 / 18 <= gl_PointSize out <= 400 / 12.
Proof.
  apply (js_static_templates_in_view 0 1 0 MainJs.modelView 0); [lra | lra |].
  rewrite targetPos_scale.
  replace (0 / IZR MainJs.particleCount) with 0 by (unfold Rdiv; ring).
  now rewrite getShape_flower_0.
Defined.

Lemma js_vertex_outputs_witness :
  exists out, main 0 1 0 MainJs.modelView MainJs.modelView 0 = Some out /\
              0 <= vx (vColor out) <= 1.
Proof.
  assert (Hp : targetPos 1 0 0 = Some (vscale (mkVec3 5 0 0) (1 + 0 * 2))).
  { rewrite targetPos_scale.
    replace (0 / IZR MainJs.particleCount) with 0 by (unfold Rdiv; ring).
    now rewrite getShape_flower_0. }
  destruct (js_main_defined 0 1 0 MainJs.modelView 0 _ Hp) as [out [Hout _]].
  { unfold vscale; cbn [vz]. lra. }
  exists out. split; [exact Hout |].
  destruct (js_vertex_outputs _ _ _ _ _ _ _ Hout) as [p [_ H]].
  cbv zeta in H. tauto.
Defined.

(** The ring of the reduced script is a circle of radius 8 in the plane
    [y = 0.3 z] through the first axis: for every id from 1.5 up the
    shape is defined, with [x^2 + z^2 = 64] and [y = 0.3 z]. *)
Theorem js_ring_plane (id i : R) :
  1.5 <= id ->
  exists p, getShape id i = Some p /\
            vx p * vx p + vz p * vz p = 64 /\ vy p = 0.3 * vz p.
Proof.
  intros H. rewrite getShape_ring by exact H. eexists. split; [reflexivity |].
  cbn [vx vy vz]. pose proof (sin_cos_square (i * 6.28318)). split; nra.
Qed.

Lemma js_ring_plane_witness :
  exists p, getShape 2 (1 / 4) = Some p /\
            vx p * vx p + vz p * vz p = 64 /\ vy p = 0.3 * vz p.
Proof. apply (js_ring_plane 2 (1 / 4)). lra. Defined.

(** The flower of the reduced script stays in the annulus between the
    radii 3 and 7 of the plane, and within 1 of it. *)
Theorem js_flower_envelope (id i : R) :
  0.5 <= id < 1.5 ->
  exists p, getShape id i = Some p /\
            9 <= vx p * vx p + vy p * vy p <= 49 /\ -1 <= vz p <= 1.
Proof.
  intros H. unfold getShape.
  destruct (Rlt_dec id 0.5); [lra |]. destruct (Rlt_dec id 1.5); [| lra].
  eexists. split; [reflexivity |]. cbv zeta. cbn [vx vy vz].
  set (a := i * 6.28318).
  pose proof (sin_cos_square a) as Hsc.
  pose proof (SIN_bound (a * 6.0)). pose proof (SIN_bound (i * 10.0)).
  set (rad := 5.0 + 2.0 * sin (a * 6.0)) in *.
  assert (Hr : 3 <= rad <= 7) by (subst rad; lra).
  assert (Hxy : rad * cos a * (rad * cos a) + rad * sin a * (rad * sin a) = rad * rad).
  { rewrite <- (Rmult_1_r (rad * rad)), <- Hsc. ring. }
  rewrite Hxy. split; [nra | lra].
Qed.

Lemma js_flower_envelope_witness :
  exists p, getShape 1 (1 / 4) = Some p /\
            9 <= vx p * vx p + vy p * vy p <= 49 /\ -1 <= vz p <= 1.
Proof. apply (js_flower_envelope 1 (1 / 4)). lra. Defined.

(** Near the quarter turn of the ring (particles 4400 to 5600) and with
    an expansion of at least 0.9, the expanded ring reaches past the
    camera at [z = 15]: the particle is behind the camera and the shader
    gives it a negative point size. *)
Theorem js_ring_behind_camera (uTime id e : R) (proj : mat4) (aIndex : R) :
  1.5 <= id -> 0.9 <= e <= 1 -> 4400 <= aIndex <= 5600 ->
  exists p out,
    targetPos id e aIndex = Some p /\ 15 < vz p /\
    main uTime id e MainJs.modelView proj aIndex = Some out /\
    gl_PointSize out < 0.
Proof.
  intros Hid He Ha. pose proof PI_tight.
  set (i := aIndex / IZR MainJs.particleCount).
  assert (Hi : 0.22 <= i <= 0.28) by (subst i; unfold MainJs.particleCount; lra).
  set (a := i * 6.28318).
  assert (Hsin : 0.81 <= sin a).
  { replace a with (PI / 2 - (PI / 2 - a)) by lra. rewrite sin_shift.
    pose proof (Rabs_cos1_le (PI / 2 - a)) as Hc.
    assert (Hd : Rabs (PI / 2 - a) <= 0.19) by (apply Rabs_le; subst a; lra).
    apply Rabs_bounds in Hc. lra. }
  assert (Hp : targetPos id e aIndex =
               Some (vscale (mkVec3 (8.0 * cos a) (8.0 * sin a * 0.3) (8.0 * sin a))
                            (1 + e * 2))).
  { rewrite targetPos_scale. fold i. now rewrite getShape_ring by exact Hid. }
  assert (Hz : 15 < 8.0 * sin a * (1 + e * 2)) by nra.
  destruct (js_main_defined uTime id e proj aIndex _ Hp) as [out [Hout Hs]].
  { unfold vscale; cbn [vz]. lra. }
  eexists. exists out. split; [exact Hp |].
  unfold vscale in Hs |- *; cbn [vz] in Hs |- *.
  split; [exact Hz |]. split; [exact Hout |]. rewrite Hs.
  assert (/ (15 - 8.0 * sin a * (1 + e * 2)) < 0) by (apply Rinv_lt_0_compat; lra).
  unfold Rdiv. nra.
Qed.

Lemma js_ring_behind_camera_witness :
  exists p out,
    targetPos 2 1 5000 = Some p /\ 15 < vz p /\
    main 0 2 1 MainJs.modelView MainJs.modelView 5000 = Some out /\
    gl_PointSize out < 0.
Proof.
  apply (js_ring_behind_camera 0 2 1 MainJs.modelView 5000); lra.
Defined.

(** The reduced script shows template [k mod 3] during the [k]-th window
    of four seconds of the performance clock (heart, flower, ring, heart,
    ...), and uses the clock in seconds as shader time. *)
Theorem js_template_windows (now : R) (k : Z) :
  (0 <= k)%Z -> 4000 * IZR k <= now < 4000 * (IZR k + 1) ->
  uTemplate (animate now) = (k mod 3)%Z /\ uTime (animate now) = now / 1000.
Proof.
  intros Hk Hnow.
  assert (0 <= IZR k) by now apply IZR_le.
  rewrite MainJs_template by nra.
  rewrite (Zfloor_eq k) by lra.
  split; [reflexivity |]. unfold animate; cbn [uTime]. lra.
Qed.

Lemma js_template_windows_witness :
  uTemplate (animate 17500) = (4 mod 3)%Z /\ uTime (animate 17500) = 17500 / 1000.
Proof.
  apply (js_template_windows 17500 4); [lia | lra].
Defined.


End ReducedScript.
